(** * Buffered-Logger: the ingest, dedup and double-buffered flush engine

    A shallow embedding of [DisplayDriver::BufferedLogger]
    (buffered_logger.h, buffered_logger.cpp) and the properties of its
    submission path, dedup cache, drain routine and formatter.

    Conventions of the embedding:
    - [size_t] and [uint32_t] values are [Z] with the wrap-around written out
      ([wrap64], [wrap32]);
    - [std::chrono::steady_clock::time_point] is the tick count of the clock
      as a [Z] (nanoseconds), [std::chrono::milliseconds] is a [Z];
    - [std::unordered_map<uint32_t, DedupeInfo>] is a [gmap Z DedupeInfo],
      [std::vector] is a [list];
    - a member function is a function on the object state [BufferedLogger]
      and on the sinks it writes to ([Sinks]); a call whose behaviour the
      language leaves undefined (reading a slot of an empty ring) is [None];
    - a run is a sequence of whole member calls, none overlapping another:
      the calls of one client thread, or of several threads whose calls
      happen to follow one another; the drainer thread is the operation
      [OpDrainer]. The buffer mutex serialises the critical sections and the
      counters are atomics, but a drain writes its batch after it has
      released the mutex, and [internalLog] releases it between the append
      and a synchronous drain: what is proved of the order of the lines and
      of the size of a batch is proved of such runs, not of calls that
      overlap. *)

From Stdlib Require Import ZArith Ascii String.
From Stdlib Require DecimalString DecimalZ DecimalPos.
From Stdlib Require HexadecimalString HexadecimalN HexadecimalPos.
From stdpp Require Import base option list gmap strings.

Local Open Scope Z_scope.

(** ** Machine integers *)

Definition wrap32 (n : Z) : Z := n mod 2 ^ 32.
Definition wrap64 (n : Z) : Z := n mod 2 ^ 64.

(** ** Clock *)

(** Ticks of [steady_clock] in one millisecond (the clock counts
    nanoseconds). *)
Definition ticks_per_ms : Z := 1000000.

(** [std::chrono::duration_cast<std::chrono::milliseconds>(d)]: integer
    division truncating toward zero. *)
Definition duration_cast_ms (d : Z) : Z := Z.quot d ticks_per_ms.

(** ** Data model (buffered_logger.h) *)

Inductive LogLevel : Type :=
  | TRACE | DEBUG | INFO | WARNING | ERROR | CRITICAL.

(** The enumerator values: [static_cast<int>(level)]. *)
Definition level_ordinal (l : LogLevel) : Z :=
  match l with
  | TRACE => 0 | DEBUG => 1 | INFO => 2
  | WARNING => 3 | ERROR => 4 | CRITICAL => 5
  end.

(** [a < b] on [enum class LogLevel]. *)
Definition level_ltb (a b : LogLevel) : bool :=
  level_ordinal a <? level_ordinal b.

Record LogEntry : Type := mkLogEntry {
  timestamp : Z;
  level : LogLevel;
  message : string;
  threadId : N;
  hash : Z;
  count : Z
}.

(** [LogEntry(lvl, msg, h)]: the clock is read by the constructor, the thread
    id is the caller's, [count] is always initialised to 1. *)
Definition new_LogEntry (clock : Z) (tid : N)
    (lvl : LogLevel) (msg : string) (h : Z) : LogEntry :=
  mkLogEntry clock lvl msg tid h 1.

Record Config : Type := mkConfig {
  bufferSize : Z;
  maxMemoryBytes : Z;
  flushInterval : Z;
  enableDeduplication_flag : bool;
  deduplicationWindowSize : nat;
  deduplicationTimeWindow : Z;
  minimumLevel : LogLevel;
  outputFile : string;
  consoleOutput : bool;
  asyncFlush : bool
}.

(** The default member initialisers of [Config]. *)
Definition default_Config : Config :=
  mkConfig 10000 (50 * 1024 * 1024) 1000 true 1000%nat 5000 DEBUG
           "driver.log" false true.

Record Stats : Type := mkStats {
  totalLogged : Z;
  totalFlushed : Z;
  totalDeduplicated : Z;
  currentBufferSize : Z;
  totalFlushes : Z;
  lastFlushTime : Z
}.

Record DedupeInfo : Type := mkDedupeInfo {
  lastSeen : Z;
  dcount : Z
}.

(** The state of a [BufferedLogger] object. [m_flushThread] records whether
    the drainer thread exists and has not been joined, [m_fileStream] whether
    the stream is open, [m_flushCallback] whether a callback is set. *)
Record BufferedLogger : Type := mkLogger {
  m_config : Config;
  m_primaryBuffer : list LogEntry;
  m_secondaryBuffer : list LogEntry;
  m_useSecondaryBuffer : bool;
  m_dedupeMap : gmap Z DedupeInfo;
  m_dedupeWindow : list Z;
  m_dedupeWindowIndex : nat;
  m_flushThread : bool;
  m_shutdown : bool;
  m_forceFlushRequested : bool;
  m_fileStream : bool;
  m_flushCallback : bool;
  m_stats : Stats
}.

(** What has been delivered so far: the lines written to the file stream and
    to [std::cout], the batches handed to the flush callback, the lines
    written to [std::cerr]. Newest last. *)
Record Sinks : Type := mkSinks {
  file_lines : list string;
  console_lines : list string;
  callback_batches : list (list LogEntry);
  cerr_lines : list string
}.

Definition no_output : Sinks := mkSinks [] [] [] [].

(** What a call observes of its environment: the readings of
    [steady_clock::now()] in [log] (for the probe), in the [LogEntry]
    constructor and in [performFlush], the calling thread, and the local
    date and time [put_time] prints for a record's timestamp. *)
Record Env : Type := mkEnv {
  now_probe : Z;
  now_entry : Z;
  now_flush : Z;
  this_thread : N;
  put_time : Z -> string
}.

(** ** Fingerprint: [computeHash] *)

(** [static_cast<uint32_t>(c)] for a [char c]: [char] is signed, so bytes
    from 0x80 are sign-extended. *)
Definition char_to_uint32 (c : ascii) : Z :=
  let b := Z.of_N (N_of_ascii c) in
  if b <? 128 then b else wrap32 (b - 256).

Definition fnv_offset : Z := 2166136261.
Definition fnv_prime : Z := 16777619.

(** One round: [hash ^= x; hash *= 16777619u]. *)
Definition fnv_round (h x : Z) : Z := wrap32 (Z.lxor h x * fnv_prime).

Fixpoint fnv_message (h : Z) (msg : string) : Z :=
  match msg with
  | EmptyString => h
  | String c rest => fnv_message (fnv_round h (char_to_uint32 c)) rest
  end.

Definition computeHash (msg : string) (lvl : LogLevel) : Z :=
  fnv_message (fnv_round fnv_offset (level_ordinal lvl)) msg.

(** ** Dedup cache: [shouldDeduplicate] *)

(** [duration_cast<milliseconds>(now - t)]. *)
Definition elapsed_ms (now t : Z) : Z := duration_cast_ms (now - t).

Definition set_dedupe (s : BufferedLogger) (m : gmap Z DedupeInfo)
    (w : list Z) (i : nat) : BufferedLogger :=
  mkLogger (m_config s) (m_primaryBuffer s) (m_secondaryBuffer s)
           (m_useSecondaryBuffer s) m w i (m_flushThread s) (m_shutdown s)
           (m_forceFlushRequested s) (m_fileStream s) (m_flushCallback s)
           (m_stats s).

(** The first [if] of the probe: the entry found for [h], when it was seen
    less than the time window ago. *)
Definition dedupe_hit (s : BufferedLogger) (h now : Z) : option DedupeInfo :=
  match m_dedupeMap s !! h with
  | Some info =>
      if elapsed_ms now (lastSeen info) <? deduplicationTimeWindow (m_config s)
      then Some info else None
  | None => None
  end.

(** The block under [if (m_dedupeWindow[m_dedupeWindowIndex] != 0)]: [old] is
    the fingerprint found in the slot, [m] the map after the insertion. *)
Definition evict_displaced (window_ms now old : Z)
    (m : gmap Z DedupeInfo) : gmap Z DedupeInfo :=
  if old =? 0 then m
  else match m !! old with
       | Some info =>
           if window_ms <=? elapsed_ms now (lastSeen info)
           then delete old m else m
       | None => m
       end.

(** The rest of the probe, from [m_dedupeMap[hash] = {now, 1}]. The slot read
    [m_dedupeWindow[m_dedupeWindowIndex]] is defined only inside the ring. *)
Definition dedupe_track (s : BufferedLogger) (h now : Z)
    : option BufferedLogger :=
  let m1 := <[h := mkDedupeInfo now 1]> (m_dedupeMap s) in
  old ← m_dedupeWindow s !! m_dedupeWindowIndex s;
  let m2 :=
    evict_displaced (deduplicationTimeWindow (m_config s)) now old m1 in
  Some (set_dedupe s m2
          (<[m_dedupeWindowIndex s := h]> (m_dedupeWindow s))
          ((m_dedupeWindowIndex s + 1) mod length (m_dedupeWindow s))%nat).

(** [true] is "deduplicate" (suppress), [false] is "don't" (pass). *)
Definition shouldDeduplicate (s : BufferedLogger) (h now : Z)
    : option (bool * BufferedLogger) :=
  match dedupe_hit s h now with
  | Some info =>
      Some (true,
            set_dedupe s
              (<[h := mkDedupeInfo now (wrap64 (dcount info + 1))]>
                 (m_dedupeMap s))
              (m_dedupeWindow s) (m_dedupeWindowIndex s))
  | None => s' ← dedupe_track s h now; Some (false, s')
  end.

(** ** Formatter: [formatLogEntry] *)

Definition levelStrings : list string :=
  ["TRACE"; "DEBUG"; "INFO "; "WARN "; "ERROR"; "CRIT "]%string.

(** [levelStrings[static_cast<int>(entry.level)]]. *)
Definition level_tag (l : LogLevel) : string :=
  default ""%string (levelStrings !! Z.to_nat (level_ordinal l)).

Definition dec (n : Z) : string :=
  DecimalString.NilZero.string_of_int (Z.to_int n).

(** [std::hex] on the thread id: lower-case digits, no prefix. *)
Definition hex (n : N) : string :=
  HexadecimalString.NilZero.string_of_uint (N.to_hex_uint n).

Fixpoint fill_zeros (n : nat) : string :=
  match n with
  | O => EmptyString
  | S k => String "0"%char (fill_zeros k)
  end.

(** [std::setfill('0') << std::setw(3)]: zeros in front, up to width 3. *)
Definition setw3 (s : string) : string :=
  (fill_zeros (3 - String.length s) ++ s)%string.

(** The milliseconds field: [duration_cast<milliseconds>(
    timestamp.time_since_epoch()) % 1000]. *)
Definition millis_field (e : LogEntry) : string :=
  setw3 (dec (Z.rem (duration_cast_ms (timestamp e)) 1000)).

(** ["[" date-time "." mmm "] "]. *)
Definition timestamp_field (env : Env) (e : LogEntry) : string :=
  ("[" ++ put_time env (timestamp e) ++ "." ++ millis_field e ++ "] ")%string.

Definition level_field (e : LogEntry) : string :=
  ("[" ++ level_tag (level e) ++ "] ")%string.

Definition thread_field (e : LogEntry) : string :=
  ("[T:" ++ hex (threadId e) ++ "] ")%string.

(** The text under [if (entry.count > 1)]. *)
Definition repeated_suffix (e : LogEntry) : string :=
  if 1 <? count e
  then (" (repeated " ++ dec (count e) ++ " times)")%string
  else EmptyString.

Definition formatLogEntry (env : Env) (e : LogEntry) : string :=
  (timestamp_field env e ++ level_field e ++ thread_field e
     ++ message e ++ repeated_suffix e)%string.

(** ** Record buffer and drain routine *)

(** [sizeof(LogEntry)] and [std::string::capacity()] as on x86-64 with
    libstdc++: a 72-byte record, and a copied string holds at least the 15
    bytes of the small-string buffer. They only enter the back-pressure
    estimate; no property below depends on their values. *)
Definition sizeof_LogEntry : Z := 72.
Definition capacity (msg : string) : Z :=
  Z.max 15 (Z.of_nat (String.length msg)).

(** [m_useSecondaryBuffer ? m_secondaryBuffer : m_primaryBuffer]. *)
Definition currentBuffer (s : BufferedLogger) : list LogEntry :=
  if m_useSecondaryBuffer s then m_secondaryBuffer s else m_primaryBuffer s.

Definition otherBuffer (s : BufferedLogger) : list LogEntry :=
  if m_useSecondaryBuffer s then m_primaryBuffer s else m_secondaryBuffer s.

(** Assignment through the reference [currentBuffer]. *)
Definition set_currentBuffer (s : BufferedLogger) (b : list LogEntry)
    : BufferedLogger :=
  mkLogger (m_config s)
           (if m_useSecondaryBuffer s then m_primaryBuffer s else b)
           (if m_useSecondaryBuffer s then b else m_secondaryBuffer s)
           (m_useSecondaryBuffer s) (m_dedupeMap s) (m_dedupeWindow s)
           (m_dedupeWindowIndex s) (m_flushThread s) (m_shutdown s)
           (m_forceFlushRequested s) (m_fileStream s) (m_flushCallback s)
           (m_stats s).

Definition set_useSecondaryBuffer (s : BufferedLogger) (b : bool)
    : BufferedLogger :=
  mkLogger (m_config s) (m_primaryBuffer s) (m_secondaryBuffer s) b
           (m_dedupeMap s) (m_dedupeWindow s) (m_dedupeWindowIndex s)
           (m_flushThread s) (m_shutdown s) (m_forceFlushRequested s)
           (m_fileStream s) (m_flushCallback s) (m_stats s).

Definition set_stats (s : BufferedLogger) (st : Stats) : BufferedLogger :=
  mkLogger (m_config s) (m_primaryBuffer s) (m_secondaryBuffer s)
           (m_useSecondaryBuffer s) (m_dedupeMap s) (m_dedupeWindow s)
           (m_dedupeWindowIndex s) (m_flushThread s) (m_shutdown s)
           (m_forceFlushRequested s) (m_fileStream s) (m_flushCallback s) st.

Definition set_config (s : BufferedLogger) (c : Config) : BufferedLogger :=
  mkLogger c (m_primaryBuffer s) (m_secondaryBuffer s)
           (m_useSecondaryBuffer s) (m_dedupeMap s) (m_dedupeWindow s)
           (m_dedupeWindowIndex s) (m_flushThread s) (m_shutdown s)
           (m_forceFlushRequested s) (m_fileStream s) (m_flushCallback s)
           (m_stats s).

Definition set_forceFlushRequested (s : BufferedLogger) (b : bool)
    : BufferedLogger :=
  mkLogger (m_config s) (m_primaryBuffer s) (m_secondaryBuffer s)
           (m_useSecondaryBuffer s) (m_dedupeMap s) (m_dedupeWindow s)
           (m_dedupeWindowIndex s) (m_flushThread s) (m_shutdown s) b
           (m_fileStream s) (m_flushCallback s) (m_stats s).

Definition set_flushCallback (s : BufferedLogger) (b : bool)
    : BufferedLogger :=
  mkLogger (m_config s) (m_primaryBuffer s) (m_secondaryBuffer s)
           (m_useSecondaryBuffer s) (m_dedupeMap s) (m_dedupeWindow s)
           (m_dedupeWindowIndex s) (m_flushThread s) (m_shutdown s)
           (m_forceFlushRequested s) (m_fileStream s) b (m_stats s).

(** The three lifecycle fields [shutdown] writes. *)
Definition set_lifecycle (s : BufferedLogger)
    (thread down file : bool) : BufferedLogger :=
  mkLogger (m_config s) (m_primaryBuffer s) (m_secondaryBuffer s)
           (m_useSecondaryBuffer s) (m_dedupeMap s) (m_dedupeWindow s)
           (m_dedupeWindowIndex s) thread down (m_forceFlushRequested s)
           file (m_flushCallback s) (m_stats s).

(** [estimateMemoryUsage]: the loop over the active buffer, in [size_t]. *)
Definition estimateMemoryUsage (s : BufferedLogger) : Z :=
  fold_left
    (fun usage e => wrap64 (usage + (sizeof_LogEntry + capacity (message e))))
    (currentBuffer s) 0.

(** The counter updates of [internalLog], [performFlush] and [log]. *)
Definition stats_logged (st : Stats) (depth : Z) : Stats :=
  mkStats (wrap64 (totalLogged st + 1)) (totalFlushed st)
          (totalDeduplicated st) depth (totalFlushes st) (lastFlushTime st).

Definition stats_swapped (st : Stats) : Stats :=
  mkStats (totalLogged st) (totalFlushed st) (totalDeduplicated st) 0
          (totalFlushes st) (lastFlushTime st).

Definition stats_flushed (st : Stats) (batch : Z) (now : Z) : Stats :=
  mkStats (totalLogged st) (wrap64 (totalFlushed st + batch))
          (totalDeduplicated st) (currentBufferSize st)
          (wrap64 (totalFlushes st + 1)) now.

Definition stats_deduplicated (st : Stats) : Stats :=
  mkStats (totalLogged st) (totalFlushed st)
          (wrap64 (totalDeduplicated st + 1)) (currentBufferSize st)
          (totalFlushes st) (lastFlushTime st).

(** The [for] loop of [performFlush] followed by the callback: every record
    is formatted and written to the file stream if it is open and to the
    console if enabled; the callback, if set, receives the batch. *)
Definition emit_batch (s : BufferedLogger) (out : Sinks) (env : Env)
    (batch : list LogEntry) : Sinks :=
  let lines := formatLogEntry env <$> batch in
  mkSinks
    (if m_fileStream s then file_lines out ++ lines else file_lines out)
    (if consoleOutput (m_config s)
     then console_lines out ++ lines else console_lines out)
    (if m_flushCallback s
     then callback_batches out ++ [batch] else callback_batches out)
    (cerr_lines out).

Definition performFlush (s : BufferedLogger) (out : Sinks) (env : Env)
    : BufferedLogger * Sinks :=
  match currentBuffer s with
  | [] => (s, out)
  | batch =>
      let s1 := set_currentBuffer s [] in
      let s2 := set_useSecondaryBuffer s1 (negb (m_useSecondaryBuffer s1)) in
      let s3 := set_stats s2 (stats_swapped (m_stats s2)) in
      let out' := emit_batch s3 out env batch in
      let s4 :=
        set_stats s3
          (stats_flushed (m_stats s3) (Z.of_nat (length batch))
             (now_flush env)) in
      (set_forceFlushRequested s4 false, out')
  end.

Definition internalLog (s : BufferedLogger) (out : Sinks) (env : Env)
    (entry : LogEntry) : BufferedLogger * Sinks :=
  let s1 := set_currentBuffer s (currentBuffer s ++ [entry]) in
  let depth := Z.of_nat (length (currentBuffer s1)) in
  let s2 := set_stats s1 (stats_logged (m_stats s1) depth) in
  let shouldFlush :=
    (bufferSize (m_config s2) <=? depth)
    || (maxMemoryBytes (m_config s2) <=? estimateMemoryUsage s2) in
  if shouldFlush then
    if asyncFlush (m_config s2)
    then (set_forceFlushRequested s2 true, out)
    else performFlush s2 out env
  else (s2, out).

(** [log(LogLevel, const std::string&)]. *)
Definition log (s : BufferedLogger) (out : Sinks) (env : Env)
    (lvl : LogLevel) (msg : string) : option (BufferedLogger * Sinks) :=
  if level_ltb lvl (minimumLevel (m_config s)) then Some (s, out)
  else if enableDeduplication_flag (m_config s) then
    let h := computeHash msg lvl in
    '(dup, s1) ← shouldDeduplicate s h (now_probe env);
    if (dup : bool)
    then Some (set_stats s1 (stats_deduplicated (m_stats s1)), out)
    else Some (internalLog s1 out env
                 (new_LogEntry (now_entry env) (this_thread env) lvl msg h))
  else Some (internalLog s out env
               (new_LogEntry (now_entry env) (this_thread env) lvl msg 0)).

Definition flush (s : BufferedLogger) (out : Sinks) (env : Env)
    : BufferedLogger * Sinks :=
  if asyncFlush (m_config s)
  then (set_forceFlushRequested s true, out)
  else performFlush s out env.

Definition forceFlush (s : BufferedLogger) (out : Sinks) (env : Env)
    : BufferedLogger * Sinks :=
  performFlush s out env.

(** One turn of the loop of [flushWorker]: the drainer thread wakes up (on
    the interval or on a request) and drains, unless it was never started,
    has been joined, or sees [m_shutdown]. *)
Definition flushWorker_turn (s : BufferedLogger) (out : Sinks) (env : Env)
    : BufferedLogger * Sinks :=
  if m_flushThread s && negb (m_shutdown s)
  then performFlush s out env else (s, out).

Definition shutdown (s : BufferedLogger) (out : Sinks) (env : Env)
    : BufferedLogger * Sinks :=
  if m_shutdown s then (s, out)
  else
    let s1 := set_lifecycle s false true (m_fileStream s) in
    let '(s2, out') := forceFlush s1 out env in
    (set_lifecycle s2 (m_flushThread s2) (m_shutdown s2) false, out').

Definition setMinimumLevel (s : BufferedLogger) (lvl : LogLevel)
    : BufferedLogger :=
  let c := m_config s in
  set_config s
    (mkConfig (bufferSize c) (maxMemoryBytes c) (flushInterval c)
       (enableDeduplication_flag c) (deduplicationWindowSize c)
       (deduplicationTimeWindow c) lvl (outputFile c) (consoleOutput c)
       (asyncFlush c)).

Definition enableDeduplication (s : BufferedLogger) (enable : bool)
    : BufferedLogger :=
  let c := m_config s in
  let s1 :=
    set_config s
      (mkConfig (bufferSize c) (maxMemoryBytes c) (flushInterval c)
         enable (deduplicationWindowSize c) (deduplicationTimeWindow c)
         (minimumLevel c) (outputFile c) (consoleOutput c) (asyncFlush c)) in
  if enable then s1
  else set_dedupe s1 ∅ (const 0 <$> m_dedupeWindow s1) 0%nat.

Definition setFlushCallback (s : BufferedLogger) (callable : bool)
    : BufferedLogger :=
  set_flushCallback s callable.

Definition fresh_Stats : Stats := mkStats 0 0 0 0 0 0.

(** The constructor. [opens] tells whether opening [config.outputFile]
    succeeds. *)
Definition construct (config : Config) (opens : bool)
    : BufferedLogger * Sinks :=
  let ring :=
    if enableDeduplication_flag config
    then replicate (deduplicationWindowSize config) 0 else [] in
  let named := negb (String.eqb (outputFile config) EmptyString) in
  (mkLogger config [] [] false ∅ ring 0%nat (asyncFlush config) false false
            (named && opens) false fresh_Stats,
   mkSinks [] [] []
     (if named && negb opens
      then [("Failed to open log file: " ++ outputFile config)%string]
      else [])).

(** ** Runs *)

(** The calls a client (or the drainer thread) makes on a logger. *)
Inductive Op : Type :=
  | OpLog (env : Env) (lvl : LogLevel) (msg : string)
  | OpFlush (env : Env)
  | OpForceFlush (env : Env)
  | OpDrainer (env : Env)
  | OpSetMinimumLevel (lvl : LogLevel)
  | OpEnableDeduplication (enable : bool)
  | OpSetFlushCallback (callable : bool)
  | OpShutdown (env : Env).

Definition step (op : Op) (st : BufferedLogger * Sinks)
    : option (BufferedLogger * Sinks) :=
  let '(s, out) := st in
  match op with
  | OpLog env lvl msg => log s out env lvl msg
  | OpFlush env => Some (flush s out env)
  | OpForceFlush env => Some (forceFlush s out env)
  | OpDrainer env => Some (flushWorker_turn s out env)
  | OpSetMinimumLevel lvl => Some (setMinimumLevel s lvl, out)
  | OpEnableDeduplication enable => Some (enableDeduplication s enable, out)
  | OpSetFlushCallback callable => Some (setFlushCallback s callable, out)
  | OpShutdown env => Some (shutdown s out env)
  end.

Fixpoint run (ops : list Op) (st : BufferedLogger * Sinks)
    : option (BufferedLogger * Sinks) :=
  match ops with
  | [] => Some st
  | op :: rest => st' ← step op st; run rest st'
  end.

(** ** Predicates used by the statements *)

(** The submissions that pass the level filter, counted along a run. *)
Definition passes_filter (op : Op) (s : BufferedLogger) : bool :=
  match op with
  | OpLog _ lvl _ => negb (level_ltb lvl (minimumLevel (m_config s)))
  | _ => false
  end.

Fixpoint accepted (ops : list Op) (st : BufferedLogger * Sinks) : Z :=
  match ops with
  | [] => 0
  | op :: rest =>
      (if passes_filter op st.1 then 1 else 0)
      + match step op st with
        | Some st' => accepted rest st'
        | None => 0
        end
  end.

Definition is_shutdown (op : Op) : bool :=
  match op with OpShutdown _ => true | _ => false end.

(** [enableDeduplication(true)]. *)
Definition enables_dedup (op : Op) : bool :=
  match op with OpEnableDeduplication true => true | _ => false end.

(** Every record waiting in the active buffer is logged and not yet flushed;
    the other buffer is empty. *)
Definition ledger (s : BufferedLogger) : Prop :=
  totalLogged (m_stats s)
    = wrap64 (totalFlushed (m_stats s)
              + Z.of_nat (length (currentBuffer s)))
  /\ totalFlushed (m_stats s) = wrap64 (totalFlushed (m_stats s))
  /\ otherBuffer s = [].

(** The counters account for [a] submissions past the level filter. *)
Definition accounts (s : BufferedLogger) (a : Z) : Prop :=
  wrap64 (totalLogged (m_stats s) + totalDeduplicated (m_stats s))
    = wrap64 a.

(** ** Concrete scenarios *)

(** An environment whose three clock readings are [t]. *)
Definition env_at (t : Z) : Env :=
  mkEnv t t t 48879%N (fun _ => "2024-01-01 00:00:00"%string).

(** The default configuration with synchronous flushing. *)
Definition sync_Config : Config :=
  mkConfig 10000 (50 * 1024 * 1024) 1000 true 1000%nat 5000 DEBUG
           "driver.log" false false.

(** The same message twice within the time window, then shutdown. *)
Definition dup_ops : list Op :=
  [OpLog (env_at 1000000) INFO "dup"; OpLog (env_at 2000000) INFO "dup"].

Definition dup_run : option (BufferedLogger * Sinks) :=
  run (dup_ops ++ [OpShutdown (env_at 3000000)]) (construct sync_Config true).

Definition dup_final : BufferedLogger * Sinks :=
  default (construct sync_Config true) dup_run.

(** ** Records and lines without a repetition count *)

(** The record [log] constructs for a submission of [ops]: the level and
    the message are the ones submitted, the fingerprint is the one [log]
    computed (or 0), the count is the constructor's 1. *)
Definition submitted_by (ops : list Op) (e : LogEntry) : Prop :=
  exists (env : Env) (lvl : LogLevel) (msg : string) (h : Z),
    OpLog env lvl msg ∈ ops
    /\ e = new_LogEntry (now_entry env) (this_thread env) lvl msg h.

(** [line] is the header of a record submitted in [ops] followed by the
    message of that submission, and ends there. *)
Definition message_line (ops : list Op) (line : string) : Prop :=
  exists (wall env : Env) (lvl : LogLevel) (msg : string) (h : Z),
    OpLog env lvl msg ∈ ops
    /\ line
       = formatLogEntry wall
           (new_LogEntry (now_entry env) (this_thread env) lvl msg h)
    /\ line
       = (timestamp_field wall
            (new_LogEntry (now_entry env) (this_thread env) lvl msg h)
          ++ "[" ++ level_tag lvl ++ "] "
          ++ "[T:" ++ hex (this_thread env) ++ "] "
          ++ msg)%string.

Definition counts_one (ops : list Op) (st : BufferedLogger * Sinks) : Prop :=
  Forall (submitted_by ops) (m_primaryBuffer st.1)
  /\ Forall (submitted_by ops) (m_secondaryBuffer st.1)
  /\ Forall (Forall (submitted_by ops)) (callback_batches st.2)
  /\ Forall (message_line ops) (file_lines st.2)
  /\ Forall (message_line ops) (console_lines st.2).

(** The cursor is inside the ring. *)
Definition ring_ok (s : BufferedLogger) : Prop :=
  (m_dedupeWindowIndex s < length (m_dedupeWindow s))%nat.

(** The default configuration with deduplication switched off at
    construction. *)
Definition nodedup_Config : Config :=
  mkConfig 10000 (50 * 1024 * 1024) 1000 false 1000%nat 5000 DEBUG
           "driver.log" false false.

(** Synchronous flushing, console output, a buffer of one record. *)
Definition console_Config : Config :=
  mkConfig 1 (50 * 1024 * 1024) 1000 true 1000%nat 5000 DEBUG
           "driver.log" true false.

(** A logger that has been shut down, by configuration. *)
Definition shut_down (config : Config) : BufferedLogger * Sinks :=
  shutdown (construct config true).1 (construct config true).2
           (env_at 1000000).

Definition after_shutdown (config : Config)
    : option (BufferedLogger * Sinks) :=
  log (shut_down config).1 (shut_down config).2 (env_at 2000000)
      INFO "After shutdown".

(** A dedup cache that has seen fingerprint 5 at time 0, with a ring of one
    slot and the default window of 5000 ms. *)
Definition one_slot_Config : Config :=
  mkConfig 10000 (50 * 1024 * 1024) 1000 true 1%nat 5000 DEBUG
           "driver.log" false false.

Definition seen_5 : BufferedLogger :=
  mkLogger one_slot_Config [] [] false {[5 := mkDedupeInfo 0 1]} [5] 0%nat
           false false false true false fresh_Stats.

(** A ring of one slot and a time window of 0 ms. *)
Definition zero_window_Config : Config :=
  mkConfig 10000 (50 * 1024 * 1024) 1000 true 1%nat 0 DEBUG
           "driver.log" false false.

(** The cache of such a logger after a probe of fingerprint 5 at tick
    1000. *)
Definition seen_late : BufferedLogger :=
  default (construct zero_window_Config true).1
    (snd <$> shouldDeduplicate (construct zero_window_Config true).1 5 1000).

(** A record of count 3, of a thread whose id is 48879. *)
Definition repeated_entry : LogEntry :=
  mkLogEntry 1234567890 WARNING "vsync late" 48879 7 3.

(** The state after probing [seen_5] with fingerprint 7 at 6000 ms. *)
Definition seen_5_then_7 : BufferedLogger :=
  default seen_5 (snd <$> shouldDeduplicate seen_5 7 6000000000).

(** ** Predicates of the further properties *)

(** The configuration fields no member function writes. *)
Definition static_config (c c' : Config) : Prop :=
  bufferSize c' = bufferSize c
  /\ maxMemoryBytes c' = maxMemoryBytes c
  /\ flushInterval c' = flushInterval c
  /\ deduplicationWindowSize c' = deduplicationWindowSize c
  /\ deduplicationTimeWindow c' = deduplicationTimeWindow c
  /\ outputFile c' = outputFile c
  /\ consoleOutput c' = consoleOutput c
  /\ asyncFlush c' = asyncFlush c.

Definition any_op (op : Op) : Prop := True.

Definition sets_callback (op : Op) : bool :=
  match op with OpSetFlushCallback true => true | _ => false end.

(** ** Scenarios of the further properties *)

(** The state reached by [dup_ops], before the shutdown. *)
Definition dup_before : BufferedLogger * Sinks :=
  default (construct sync_Config true) (run dup_ops (construct sync_Config true)).

(** A submission and a forced flush after a shutdown. *)
Definition late_ops : list Op :=
  [OpLog (env_at 5000000) ERROR "late"; OpForceFlush (env_at 6000000)].

Definition late_final : BufferedLogger * Sinks :=
  default dup_before
    (run late_ops (shutdown dup_before.1 dup_before.2 (env_at 3000000))).

(** Synchronous flushing, console output, no file name. *)
Definition nofile_Config : Config :=
  mkConfig 10000 (50 * 1024 * 1024) 1000 true 1000%nat 5000 DEBUG
           "" true false.

Definition nofile_ops : list Op :=
  [OpLog (env_at 1000000) INFO "a"; OpLog (env_at 2000000) WARNING "b";
   OpForceFlush (env_at 3000000)].

Definition nofile_final : BufferedLogger * Sinks :=
  default (construct nofile_Config true)
    (run nofile_ops (construct nofile_Config true)).

(** The record a submission appends to the active buffer, if it passes the
    level filter and the dedup probe. *)
Definition admitted_record (s : BufferedLogger) (env : Env)
    (lvl : LogLevel) (msg : string) : option LogEntry :=
  if level_ltb lvl (minimumLevel (m_config s)) then None
  else if enableDeduplication_flag (m_config s) then
    match shouldDeduplicate s (computeHash msg lvl) (now_probe env) with
    | Some (false, _) =>
        Some (new_LogEntry (now_entry env) (this_thread env) lvl msg
                (computeHash msg lvl))
    | _ => None
    end
  else Some (new_LogEntry (now_entry env) (this_thread env) lvl msg 0).

Definition admitted_by (op : Op) (s : BufferedLogger) : list LogEntry :=
  match op with
  | OpLog env lvl msg => option_list (admitted_record s env lvl msg)
  | _ => []
  end.

(** The records appended along a run, in the order of the submissions. *)
Fixpoint admitted (ops : list Op) (st : BufferedLogger * Sinks)
    : list LogEntry :=
  match ops with
  | [] => []
  | op :: rest =>
      admitted_by op st.1
      ++ match step op st with
         | Some st' => admitted rest st'
         | None => []
         end
  end.

(** [line] is the formatting of [e], at some reading of the wall clock. *)
Definition renders (line : string) (e : LogEntry) : Prop :=
  exists env : Env, line = formatLogEntry env e.

(** The file holds the lines of the records delivered so far, which with the
    records waiting in the active buffer are [hist]; the console, if
    enabled, holds the same lines; [totalFlushed] counts them. *)
Definition stream_inv (s : BufferedLogger) (out : Sinks)
    (hist : list LogEntry) : Prop :=
  m_fileStream s = true /\ otherBuffer s = []
  /\ (consoleOutput (m_config s) = true ->
      console_lines out = file_lines out)
  /\ totalFlushed (m_stats s) = wrap64 (Z.of_nat (length (file_lines out)))
  /\ exists delivered : list LogEntry,
       hist = delivered ++ currentBuffer s
       /\ Forall2 renders (file_lines out) delivered.

(** The back-pressure thresholds are not reached: the active buffer is
    empty, or shorter than [bufferSize] with an estimate under
    [maxMemoryBytes]. *)
Definition below_thresholds (s : BufferedLogger) : Prop :=
  currentBuffer s = []
  \/ (Z.of_nat (length (currentBuffer s)) < bufferSize (m_config s)
      /\ estimateMemoryUsage s < maxMemoryBytes (m_config s)).

(** Five submissions into a synchronous logger with a buffer of two. *)
Definition small_Config : Config :=
  mkConfig 2 (50 * 1024 * 1024) 1000 false 0%nat 5000 TRACE
           "driver.log" true false.

Definition five_ops : list Op :=
  [OpLog (env_at 1000000) INFO "m1"; OpLog (env_at 2000000) INFO "m2";
   OpLog (env_at 3000000) INFO "m3"; OpLog (env_at 4000000) INFO "m4";
   OpLog (env_at 5000000) INFO "m5"].

Definition five_final : BufferedLogger * Sinks :=
  default (construct small_Config true) (run five_ops (construct small_Config true)).




(** A series of probes of one fingerprint, at the given times. *)
Fixpoint probes (s : BufferedLogger) (h : Z) (times : list Z)
    : option (list bool * BufferedLogger) :=
  match times with
  | [] => Some ([], s)
  | t :: rest =>
      '(b, s1) ← shouldDeduplicate s h t;
      '(bs, s2) ← probes s1 h rest;
      Some (b :: bs, s2)
  end.

(** Each time is less than the window after the one before, [t0] first. *)
Fixpoint paced (window_ms t0 : Z) (times : list Z) : Prop :=
  match times with
  | [] => True
  | t :: rest => elapsed_ms t t0 < window_ms /\ paced window_ms t rest
  end.

(** The state reached by the first submission of [dup_ops]. *)
Definition dup_first : BufferedLogger * Sinks :=
  default (construct sync_Config true)
    (log (construct sync_Config true).1 (construct sync_Config true).2
       (env_at 1000000) INFO "dup").

Definition dup_second : BufferedLogger * Sinks :=
  default dup_first
    (log dup_first.1 dup_first.2 (env_at 2000000) INFO "dup").

(** ** Formatted submission: the variadic overload of [log] *)

(** The characters [vsnprintf(buffer, size, format, args)] stores before
    the terminating NUL: the first [size - 1] of the expansion of the format
    and its arguments. *)
Definition vsnprintf_stored (size : nat) (expansion : string) : string :=
  String.substring 0 (size - 1) expansion.

(** A [std::string] built from the buffer as a C string: the characters
    before the first NUL. *)
Fixpoint c_string (buffer : string) : string :=
  match buffer with
  | EmptyString => EmptyString
  | String c rest =>
      if Ascii.eqb c Ascii.zero then EmptyString
      else String c (c_string rest)
  end.

(** [sizeof(s_formatBuffer)]. *)
Definition formatBuffer_size : nat := 4096.

(** The formatted overload of [log]; [expansion] is what the format and its
    arguments expand to. *)
Definition log_format (s : BufferedLogger) (out : Sinks) (env : Env)
    (lvl : LogLevel) (expansion : string)
    : option (BufferedLogger * Sinks) :=
  if level_ltb lvl (minimumLevel (m_config s)) then Some (s, out)
  else log s out env lvl
         (c_string (vsnprintf_stored formatBuffer_size expansion)).

Fixpoint has_nul (s : string) : bool :=
  match s with
  | EmptyString => false
  | String c rest => Ascii.eqb c Ascii.zero || has_nul rest
  end.

(** ** Digits *)

Definition is_digit (c : ascii) : bool :=
  (48 <=? N_of_ascii c)%N && (N_of_ascii c <=? 57)%N.

Fixpoint all_digits (s : string) : bool :=
  match s with
  | EmptyString => true
  | String c rest => is_digit c && all_digits rest
  end.

Definition three_digits (s : string) : bool :=
  (String.length s =? 3)%nat && all_digits s.

(** ** Probes of several fingerprints *)

(** One probe for each fingerprint of [hs], all at the time [now]. *)
Fixpoint probe_each (s : BufferedLogger) (hs : list Z) (now : Z)
    : option (list bool * BufferedLogger) :=
  match hs with
  | [] => Some ([], s)
  | h :: rest =>
      '(b, s1) ← shouldDeduplicate s h now;
      '(bs, s2) ← probe_each s1 rest now;
      Some (b :: bs, s2)
  end.

(** Every entry of the map was seen less than the window before [now]. *)
Definition all_recent (s : BufferedLogger) (now : Z) : Prop :=
  forall k info,
    m_dedupeMap s !! k = Some info ->
    elapsed_ms now (lastSeen info) < deduplicationTimeWindow (m_config s).

(** A ring of one slot, an empty cache. *)
Definition one_slot_fresh : BufferedLogger := (construct one_slot_Config true).1.

(** A callback is set, then five records go through a buffer of two. *)
Definition callback_ops : list Op := OpSetFlushCallback true :: five_ops.

Definition callback_final : BufferedLogger * Sinks :=
  default (construct small_Config true)
    (run callback_ops (construct small_Config true)).

(** * Properties *)

(** ** Clock arithmetic *)

(** For a clock that has not gone back, comparing the truncated
    milliseconds with the window is comparing the exact tick difference. *)
Lemma elapsed_ms_lt_exact (now t w : Z) :
  t <= now -> (elapsed_ms now t < w <-> now - t < w * ticks_per_ms).
Proof.
  intros Hle. unfold elapsed_ms, duration_cast_ms, ticks_per_ms.
  rewrite Z.quot_div_nonneg by lia.
  split; intros H.
  - apply Z.nle_gt. intros Hc.
    pose proof (Z.div_le_lower_bound (now - t) 1000000 w). lia.
  - apply Z.div_lt_upper_bound; lia.
Qed.

Lemma elapsed_ms_same (now : Z) : elapsed_ms now now = 0.
Proof. unfold elapsed_ms, duration_cast_ms. by rewrite Z.sub_diag. Qed.

(** ** Dedup cache *)

(** With a positive window the comparison is the exact one also for a
    reading of the clock that is older than [t]. *)
Lemma elapsed_ms_lt_positive (now t w : Z) :
  0 < w -> now < t ->
  elapsed_ms now t < w /\ now - t < w * ticks_per_ms.
Proof.
  intros Hw Hlt. unfold elapsed_ms, duration_cast_ms, ticks_per_ms.
  split; [|lia].
  replace (now - t) with (- (t - now)) by lia.
  rewrite Z.quot_opp_l by lia.
  pose proof (Z.quot_pos (t - now) 1000000). lia.
Qed.

(** C3 (amended). The probe answers "suppress" exactly when an entry for
    the fingerprint exists and the time since its [lastSeen], in whole
    milliseconds truncated toward zero, is below the time window; for a
    positive window, or a [now] that is not before [lastSeen], this is the
    exact comparison of the tick difference with the window. After a
    suppressing probe the map holds, under the fingerprint, [lastSeen = now]
    and the former count plus one (in [size_t]); every other key, the ring,
    the cursor, the buffers, the counters and the configuration are as
    before. Otherwise, when the ring has a slot under the cursor, the probe
    answers "pass". *)
Theorem shouldDeduplicate_suppress_iff (s : BufferedLogger) (h now : Z) :
  ((exists s', shouldDeduplicate s h now = Some (true, s'))
   <-> exists info,
         m_dedupeMap s !! h = Some info
         /\ Z.quot (now - lastSeen info) ticks_per_ms
              < deduplicationTimeWindow (m_config s))
  /\ (forall s',
        shouldDeduplicate s h now = Some (true, s') ->
        exists info,
          m_dedupeMap s !! h = Some info
          /\ m_dedupeMap s' !! h
               = Some (mkDedupeInfo now (wrap64 (dcount info + 1)))
          /\ (forall k, k <> h -> m_dedupeMap s' !! k = m_dedupeMap s !! k)
          /\ m_dedupeWindow s' = m_dedupeWindow s
          /\ m_dedupeWindowIndex s' = m_dedupeWindowIndex s
          /\ m_primaryBuffer s' = m_primaryBuffer s
          /\ m_secondaryBuffer s' = m_secondaryBuffer s
          /\ m_stats s' = m_stats s
          /\ m_config s' = m_config s)
  /\ (~ (exists info,
           m_dedupeMap s !! h = Some info
           /\ Z.quot (now - lastSeen info) ticks_per_ms
                < deduplicationTimeWindow (m_config s)) ->
      is_Some (m_dedupeWindow s !! m_dedupeWindowIndex s) ->
      exists s', shouldDeduplicate s h now = Some (false, s'))
  /\ (forall info,
        m_dedupeMap s !! h = Some info ->
        0 < deduplicationTimeWindow (m_config s) \/ lastSeen info <= now ->
        (Z.quot (now - lastSeen info) ticks_per_ms
           < deduplicationTimeWindow (m_config s)
         <-> now - lastSeen info
               < deduplicationTimeWindow (m_config s) * ticks_per_ms)).
Proof.
  assert (Hexact : forall t w,
            0 < w \/ t <= now ->
            (Z.quot (now - t) ticks_per_ms < w
             <-> now - t < w * ticks_per_ms)).
  { intros t w Hcase. change (Z.quot (now - t) ticks_per_ms)
      with (elapsed_ms now t).
    destruct (Z.le_gt_cases t now) as [Hle|Hgt].
    - by apply elapsed_ms_lt_exact.
    - destruct Hcase as [Hw|Hle]; [|lia].
      destruct (elapsed_ms_lt_positive now t w Hw Hgt). tauto. }
  unfold shouldDeduplicate, dedupe_hit.
  set (W := deduplicationTimeWindow (m_config s)).
  destruct (m_dedupeMap s !! h) as [info|] eqn:Hm.
  - change (elapsed_ms now (lastSeen info))
      with (Z.quot (now - lastSeen info) ticks_per_ms).
    destruct (Z.ltb_spec (Z.quot (now - lastSeen info) ticks_per_ms) W)
      as [Hlt|Hge].
    + split; [split; [intros _; by exists info|intros _; by eexists]|].
      split.
      { intros s' [= <-]. exists info. split; [done|].
        destruct s as [c p q u m w i th sd ff fs cb st]. simpl in *.
        split; [by rewrite lookup_insert_eq|].
        split; [intros k Hk; by rewrite lookup_insert_ne|]. done. }
      split.
      { intros Hn. exfalso. apply Hn. by exists info. }
      intros i [= <-]. apply Hexact.
    + split.
      { split.
        - intros [s' Hs']. destruct (dedupe_track s h now); simplify_eq/=.
        - intros (i & [= <-] & Hi). lia. }
      split.
      { intros s' Hs'. destruct (dedupe_track s h now); simplify_eq/=. }
      split.
      { intros _ [old Hold]. unfold dedupe_track. rewrite Hold. simpl.
        eauto. }
      intros i [= <-]. apply Hexact.
  - split.
    { split.
      - intros [s' Hs']. destruct (dedupe_track s h now); simplify_eq/=.
      - intros (i & Hi & _). done. }
    split.
    { intros s' Hs'. destruct (dedupe_track s h now); simplify_eq/=. }
    split.
    { intros _ [old Hold]. unfold dedupe_track. rewrite Hold. simpl. eauto. }
    intros i Hi. done.
Qed.

(** C3, as worded, fails for a window of 0 ms and a reading of the clock
    taken before the entry's [lastSeen] ([log] reads the clock before it
    takes the lock, so a second thread can arrive with the older reading):
    the entry exists and [now - lastSeen] is below the window, yet the
    probe answers "pass", because the difference of -500 ticks is 0 whole
    milliseconds. *)
Lemma probe_passes_before_last_seen :
  m_dedupeMap seen_late !! 5 = Some (mkDedupeInfo 1000 1)
  /\ 500 - 1000 < deduplicationTimeWindow (m_config seen_late) * ticks_per_ms
  /\ exists s', shouldDeduplicate seen_late 5 500 = Some (false, s').
Proof.
  split; [vm_compute; reflexivity|].
  split; [vm_compute; reflexivity|].
  eexists. vm_compute. reflexivity.
Qed.

(** C4. A probe that answers "pass" first writes [(now, 1)] under the probed
    fingerprint, then looks at the ring slot under the cursor: a non-zero
    fingerprint found there whose entry exists and is not recent (the time
    since its [lastSeen] has reached the window) loses its entry, any other
    leaves the map as written; then the probed fingerprint is stored in the
    slot and the cursor moves on by one modulo the ring length. With a
    positive window the entry of the probed fingerprint is [(now, 1)] in the
    resulting map. *)
Theorem shouldDeduplicate_pass_effects
    (s s' : BufferedLogger) (h now : Z) :
  shouldDeduplicate s h now = Some (false, s') ->
  exists old : Z,
    let W := deduplicationTimeWindow (m_config s) in
    let written := <[h := mkDedupeInfo now 1]> (m_dedupeMap s) in
    m_dedupeWindow s !! m_dedupeWindowIndex s = Some old
    /\ written !! h = Some (mkDedupeInfo now 1)
    /\ (forall info,
          old <> 0 -> written !! old = Some info ->
          W <= elapsed_ms now (lastSeen info) ->
          m_dedupeMap s' = delete old written
          /\ m_dedupeMap s' !! old = None)
    /\ (forall info,
          written !! old = Some info ->
          elapsed_ms now (lastSeen info) < W ->
          m_dedupeMap s' = written /\ m_dedupeMap s' !! old = Some info)
    /\ (old = 0 \/ written !! old = None -> m_dedupeMap s' = written)
    /\ (forall k, k <> old -> m_dedupeMap s' !! k = written !! k)
    /\ (0 < W -> m_dedupeMap s' !! h = Some (mkDedupeInfo now 1))
    /\ m_dedupeWindow s' = <[m_dedupeWindowIndex s := h]> (m_dedupeWindow s)
    /\ m_dedupeWindow s' !! m_dedupeWindowIndex s = Some h
    /\ m_dedupeWindowIndex s'
       = ((m_dedupeWindowIndex s + 1) mod length (m_dedupeWindow s))%nat
    /\ (m_dedupeWindowIndex s' < length (m_dedupeWindow s'))%nat.
Proof.
  unfold shouldDeduplicate. intros Hp.
  destruct (dedupe_hit s h now) as [?|] eqn:Hhit; [done|].
  destruct (dedupe_track s h now) as [t|] eqn:Ht; simplify_eq/=.
  unfold dedupe_track in Ht.
  destruct (m_dedupeWindow s !! m_dedupeWindowIndex s) as [old|] eqn:Hold;
    simplify_eq/=.
  exists old.
  set (W := deduplicationTimeWindow (m_config s)).
  set (written := <[h := mkDedupeInfo now 1]> (m_dedupeMap s)).
  pose proof (lookup_lt_Some _ _ _ Hold) as Hlt.
  assert (Hh : written !! h = Some (mkDedupeInfo now 1))
    by apply lookup_insert_eq.
  assert (Hother : forall k, k <> old ->
            evict_displaced W now old written !! k = written !! k).
  { intros k Hk. unfold evict_displaced.
    destruct (old =? 0); [done|].
    destruct (written !! old) as [i|]; [|done].
    destruct (W <=? elapsed_ms now (lastSeen i)); [|done].
    by rewrite lookup_delete_ne. }
  split; [done|]. split; [done|].
  split.
  { intros info Hz Hl Hage. unfold evict_displaced.
    destruct (Z.eqb_spec old 0); [done|]. rewrite Hl.
    destruct (Z.leb_spec W (elapsed_ms now (lastSeen info))); [|lia].
    split; [done|]. apply lookup_delete_eq. }
  split.
  { intros info Hl Hage. unfold evict_displaced.
    destruct (old =? 0); [done|]. rewrite Hl.
    destruct (Z.leb_spec W (elapsed_ms now (lastSeen info))); [lia|done]. }
  split.
  { intros [->|Hn]; unfold evict_displaced; [done|].
    destruct (old =? 0); [done|]. by rewrite Hn. }
  split; [done|].
  split.
  { intros HW. destruct (decide (h = old)) as [<-|Hne].
    - unfold evict_displaced. destruct (h =? 0); [done|]. rewrite Hh. simpl.
      rewrite elapsed_ms_same.
      destruct (Z.leb_spec W 0); [lia|done].
    - by rewrite Hother. }
  split; [done|].
  split; [by apply list_lookup_insert_eq|].
  split; [done|].
  rewrite length_insert. apply Nat.mod_upper_bound. lia.
Qed.

(** ** Fingerprint *)

(** C5. The fingerprint of the ERROR record "qsbqhpz" is the value reserved
    for an empty ring slot: [computeHash] returns the FNV-1a value as it is,
    zero included. *)
Theorem computeHash_zero_fingerprint :
  computeHash "qsbqhpz" ERROR = 0.
Proof. vm_compute. reflexivity. Qed.

(** A ring slot that receives such a fingerprint reads as empty at the next
    visit: the eviction check skips it whatever the age of its entry. *)
Lemma evict_displaced_skips_zero (w now : Z) (m : gmap Z DedupeInfo) :
  evict_displaced w now (computeHash "hzchcxz" DEBUG) m = m.
Proof.
  replace (computeHash "hzchcxz" DEBUG) with 0 by (vm_compute; reflexivity).
  reflexivity.
Qed.

(** ** Submission path *)

(** C6. A submission whose level is below the configured minimum returns at
    once: the logger (buffers, dedup cache, counters, flags) and the sinks
    are what they were, so whatever calls follow deliver what they would have
    delivered without it. *)
Theorem log_below_minimum_level
    (s : BufferedLogger) (out : Sinks) (env : Env)
    (lvl : LogLevel) (msg : string) :
  level_ordinal lvl < level_ordinal (minimumLevel (m_config s)) ->
  log s out env lvl msg = Some (s, out)
  /\ forall rest : list Op,
       run (OpLog env lvl msg :: rest) (s, out) = run rest (s, out).
Proof.
  intros Hlt.
  assert (Hlog : log s out env lvl msg = Some (s, out)).
  { unfold log, level_ltb.
    destruct (Z.ltb_spec (level_ordinal lvl)
                (level_ordinal (minimumLevel (m_config s)))); [done|lia]. }
  split; [done|]. intros rest. cbn [run step]. by rewrite Hlog.
Qed.

(** ** Drain routine *)

(** C7. With an empty active buffer the drain routine changes nothing: the
    logger (both buffers, the selector, every counter, the dedup state) and
    the sinks are returned as they were. *)
Theorem performFlush_empty_noop
    (s : BufferedLogger) (out : Sinks) (env : Env) :
  currentBuffer s = [] -> performFlush s out env = (s, out).
Proof. intros Hempty. unfold performFlush. by rewrite Hempty. Qed.

(** ** Formatter *)

Lemma string_app_assoc (a b c : string) :
  ((a ++ b) ++ c = a ++ (b ++ c))%string.
Proof.
  induction a as [|x a IH]; [done|].
  change (String x ((a ++ b) ++ c) = String x (a ++ (b ++ c)))%string.
  by rewrite IH.
Qed.

Lemma level_tag_table (l : LogLevel) :
  levelStrings !! Z.to_nat (level_ordinal l) = Some (level_tag l)
  /\ String.length (level_tag l) = 5%nat.
Proof. by destruct l. Qed.

(** Reading the thread field back as a hexadecimal numeral gives the id. *)
Lemma hex_reads_back (n : N) :
  N.of_hex_uint
    (default Hexadecimal.Nil
       (HexadecimalString.NilZero.uint_of_string (hex n))) = n.
Proof.
  unfold hex. rewrite HexadecimalString.NilZero.usu.
  - apply HexadecimalN.Unsigned.of_to.
  - destruct n; [done|]. apply HexadecimalPos.Unsigned.to_uint_nonnil.
Qed.

(** Reading a decimal count above zero back gives the count. *)
Lemma dec_reads_back (n : Z) :
  0 < n ->
  Z.of_int <$> DecimalString.NilZero.int_of_string (dec n) = Some n.
Proof.
  intros Hn. unfold dec. rewrite DecimalString.NilZero.isi.
  - simpl. by rewrite DecimalZ.of_to.
  - destruct n as [|p|p]; try lia. simpl. intros [= Hp].
    by apply (DecimalPos.Unsigned.to_uint_nonnil p).
  - destruct n as [|p|p]; try lia. done.
Qed.

(** The milliseconds 0 to 999 are printed in three characters that read
    back as the number. *)
Lemma millis_read_back_table :
  forallb
    (fun k =>
       (String.length (setw3 (dec (Z.of_nat k))) =? 3)%nat
       && match DecimalString.NilZero.int_of_string
                  (setw3 (dec (Z.of_nat k))) with
          | Some d => Z.of_int d =? Z.of_nat k
          | None => false
          end)
    (seq 0 1000)
  = true.
Proof. vm_compute. reflexivity. Qed.

Lemma millis_field_reads_back (e : LogEntry) :
  0 <= timestamp e ->
  String.length (millis_field e) = 3%nat
  /\ Z.of_int <$> DecimalString.NilZero.int_of_string (millis_field e)
     = Some ((timestamp e / ticks_per_ms) mod 1000).
Proof.
  intros Hts. unfold millis_field, duration_cast_ms.
  rewrite Z.quot_div_nonneg by (unfold ticks_per_ms; lia).
  assert (0 <= timestamp e / ticks_per_ms)
    by (apply Z.div_pos; unfold ticks_per_ms; lia).
  rewrite Z.rem_mod_nonneg by lia.
  set (n := (timestamp e / ticks_per_ms) mod 1000).
  assert (Hn : 0 <= n < 1000) by (subst n; apply Z.mod_pos_bound; lia).
  pose proof millis_read_back_table as Htab.
  rewrite forallb_forall in Htab.
  specialize (Htab (Z.to_nat n)).
  rewrite Z2Nat.id in Htab by lia.
  assert (Hin : In (Z.to_nat n) (seq 0 1000)) by (apply in_seq; lia).
  apply Htab in Hin. apply andb_true_iff in Hin as [Hlen Hval].
  apply Nat.eqb_eq in Hlen. split; [done|].
  destruct (DecimalString.NilZero.int_of_string (setw3 (dec n))) as [d|];
    [|done].
  apply Z.eqb_eq in Hval. simpl. by rewrite Hval.
Qed.

(** C8. A formatted line is, in this order: the bracketed timestamp (the
    local date and time, a dot and the milliseconds; for a record stamped at
    or after the epoch of the clock the milliseconds are three characters
    that read as the whole milliseconds of the stamp modulo 1000); the
    bracketed level tag, which is TRACE, DEBUG, "INFO ", "WARN ", ERROR or
    "CRIT " by the level, the five-character entry of the table at the
    level's ordinal; the bracketed thread id, whose digits read as the id in
    hexadecimal; the message as it is; and last, exactly when the record's
    count exceeds 1, the text " (repeated N times)" where N reads as the
    count in decimal; with a count of at most 1 the line ends with the
    message. *)
Theorem formatLogEntry_shape (env : Env) (e : LogEntry) :
  exists ms tag tid sfx : string,
    formatLogEntry env e
    = ("[" ++ put_time env (timestamp e) ++ "." ++ ms ++ "] "
       ++ "[" ++ tag ++ "] "
       ++ "[T:" ++ tid ++ "] "
       ++ message e
       ++ sfx)%string
    /\ tag = match level e with
             | TRACE => "TRACE"
             | DEBUG => "DEBUG"
             | INFO => "INFO "
             | WARNING => "WARN "
             | ERROR => "ERROR"
             | CRITICAL => "CRIT "
             end%string
    /\ levelStrings !! Z.to_nat (level_ordinal (level e)) = Some tag
    /\ String.length tag = 5%nat
    /\ N.of_hex_uint <$> HexadecimalString.NilZero.uint_of_string tid
       = Some (threadId e)
    /\ (0 <= timestamp e ->
        String.length ms = 3%nat
        /\ Z.of_int <$> DecimalString.NilZero.int_of_string ms
           = Some ((timestamp e / ticks_per_ms) mod 1000))
    /\ ((1 < count e
         /\ exists n : string,
              sfx = (" (repeated " ++ n ++ " times)")%string
              /\ Z.of_int <$> DecimalString.NilZero.int_of_string n
                 = Some (count e))
        \/ (count e <= 1 /\ sfx = ""%string)).
Proof.
  exists (millis_field e), (level_tag (level e)), (hex (threadId e)),
    (repeated_suffix e).
  destruct (level_tag_table (level e)) as [Htab Hlen].
  split.
  { unfold formatLogEntry, timestamp_field, level_field, thread_field.
    by rewrite !string_app_assoc. }
  split; [by destruct (level e)|].
  split; [done|]. split; [done|].
  split.
  { pose proof (hex_reads_back (threadId e)) as Hhex.
    destruct (HexadecimalString.NilZero.uint_of_string (hex (threadId e)))
      as [u|] eqn:Hu.
    - simpl in *. by rewrite Hhex.
    - exfalso. unfold hex in Hu.
      rewrite HexadecimalString.NilZero.usu in Hu; [done|].
      destruct (threadId e); [done|].
      apply HexadecimalPos.Unsigned.to_uint_nonnil. }
  split; [apply millis_field_reads_back|].
  unfold repeated_suffix. destruct (Z.ltb_spec 1 (count e)) as [Hgt|Hle].
  - left. split; [done|]. exists (dec (count e)). split; [done|].
    apply dec_reads_back. lia.
  - right. done.
Qed.

(** A record of count 3 logged by thread 48879 at 1234 ms. *)
Lemma formatLogEntry_shape_witness :
  exists ms tag tid sfx n : string,
    formatLogEntry (env_at 0) repeated_entry
    = ("[2024-01-01 00:00:00." ++ ms ++ "] [" ++ tag ++ "] [T:" ++ tid
       ++ "] vsync late" ++ sfx)%string
    /\ tag = "WARN "%string
    /\ N.of_hex_uint <$> HexadecimalString.NilZero.uint_of_string tid
       = Some 48879%N
    /\ Z.of_int <$> DecimalString.NilZero.int_of_string ms = Some 234
    /\ sfx = (" (repeated " ++ n ++ " times)")%string
    /\ Z.of_int <$> DecimalString.NilZero.int_of_string n = Some 3.
Proof.
  destruct (formatLogEntry_shape (env_at 0) repeated_entry)
    as (ms & tag & tid & sfx & Hline & Htag & _ & _ & Htid & Hms & Hsfx).
  destruct Hms as [_ Hms]; [vm_compute; discriminate|].
  destruct Hsfx as [(_ & n & Hn & Hcount)|[Hle _]];
    [|exfalso; vm_compute in Hle; by apply Hle].
  exists ms, tag, tid, sfx, n.
  split; [exact Hline|]. split; [exact Htag|]. split; [exact Htid|].
  split; [exact Hms|]. split; [exact Hn|exact Hcount].
Defined.


(** ** Counters along a run *)

Lemma wrap64_idemp (a : Z) : wrap64 (wrap64 a) = wrap64 a.
Proof. unfold wrap64. by rewrite Z.mod_mod. Qed.

Lemma wrap64_add_l (a b : Z) : wrap64 (wrap64 a + b) = wrap64 (a + b).
Proof. unfold wrap64. by rewrite Z.add_mod_idemp_l. Qed.

Lemma wrap64_add_r (a b : Z) : wrap64 (a + wrap64 b) = wrap64 (a + b).
Proof. unfold wrap64. by rewrite Z.add_mod_idemp_r. Qed.

Lemma run_app (xs ys : list Op) (st : BufferedLogger * Sinks) :
  run (xs ++ ys) st = st' ← run xs st; run ys st'.
Proof.
  revert st. induction xs as [|x xs IH]; intros st; simpl; [done|].
  destruct (step x st) as [st1|]; simpl; [apply IH|done].
Qed.

(** What a drain does to the buffers and the counters, when the other
    buffer is empty. *)
Lemma performFlush_ledger (s s' : BufferedLogger) (out out' : Sinks)
    (env : Env) :
  performFlush s out env = (s', out') ->
  otherBuffer s = [] ->
  currentBuffer s' = [] /\ otherBuffer s' = []
  /\ totalFlushed (m_stats s')
     = (if decide (currentBuffer s = []) then totalFlushed (m_stats s)
        else wrap64 (totalFlushed (m_stats s)
                     + Z.of_nat (length (currentBuffer s))))
  /\ totalLogged (m_stats s') = totalLogged (m_stats s)
  /\ totalDeduplicated (m_stats s') = totalDeduplicated (m_stats s)
  /\ m_config s' = m_config s
  /\ m_shutdown s' = m_shutdown s
  /\ m_flushThread s' = m_flushThread s
  /\ m_fileStream s' = m_fileStream s.
Proof.
  unfold performFlush. intros Hp Ho.
  destruct (currentBuffer s) as [|e batch] eqn:Hc.
  - simplify_eq. by rewrite Hc.
  - simplify_eq. destruct s as [c p q u m w i th sd ff fs cb st].
    unfold currentBuffer, otherBuffer in *. simpl in *.
    destruct u; simpl in *; subst; done.
Qed.

Lemma performFlush_keeps_ledger (s s' : BufferedLogger) (out out' : Sinks)
    (env : Env) (a : Z) :
  performFlush s out env = (s', out') ->
  ledger s -> accounts s a ->
  ledger s' /\ accounts s' a /\ m_shutdown s' = m_shutdown s
  /\ m_config s' = m_config s.
Proof.
  intros Hp (Hl & Hf & Ho) Ha.
  destruct (performFlush_ledger _ _ _ _ _ Hp Ho)
    as (Hc' & Ho' & Hf' & Hl' & Hd' & Hcfg & Hsd & _).
  unfold ledger, accounts in *. rewrite Hc', Ho', Hl', Hd'. simpl.
  rewrite Z.add_0_r.
  assert (Hnew : totalFlushed (m_stats s') = totalLogged (m_stats s)).
  { rewrite Hf'. destruct (decide (currentBuffer s = [])) as [He|Hne].
    - rewrite He in Hl. simpl in Hl. rewrite Z.add_0_r in Hl. congruence.
    - done. }
  rewrite Hnew.
  assert (Hrange : totalLogged (m_stats s) = wrap64 (totalLogged (m_stats s))).
  { rewrite Hl at 2. by rewrite wrap64_idemp. }
  done.
Qed.

Lemma internalLog_keeps_ledger (s s' : BufferedLogger) (out out' : Sinks)
    (env : Env) (e : LogEntry) (a : Z) :
  internalLog s out env e = (s', out') ->
  ledger s -> accounts s a ->
  ledger s' /\ accounts s' (a + 1) /\ m_shutdown s' = m_shutdown s
  /\ m_config s' = m_config s.
Proof.
  unfold internalLog. intros Hi (Hl & Hf & Ho) Ha.
  set (s1 := set_currentBuffer s (currentBuffer s ++ [e])) in *.
  set (s2 := set_stats s1 _) in *.
  assert (H2 : ledger s2 /\ accounts s2 (a + 1)
               /\ m_shutdown s2 = m_shutdown s /\ m_config s2 = m_config s).
  { unfold ledger, accounts in *. subst s2 s1.
    destruct s as [c p q u m w i th sd ff fs cb st].
    unfold currentBuffer, otherBuffer in *. simpl in *.
    assert (Hw : forall l : list LogEntry,
              wrap64 (wrap64 (totalFlushed st + Z.of_nat (length l)) + 1)
              = wrap64 (totalFlushed st + Z.of_nat (length (l ++ [e])))).
    { intros l. rewrite wrap64_add_l, length_app. simpl. f_equal. lia. }
    assert (Hacc : wrap64 (wrap64 (totalLogged st + 1) + totalDeduplicated st)
                   = wrap64 (a + 1)).
    { rewrite wrap64_add_l.
      replace (totalLogged st + 1 + totalDeduplicated st)
        with (totalLogged st + totalDeduplicated st + 1) by lia.
      rewrite <- wrap64_add_l, Ha, wrap64_add_l. done. }
    destruct u; simpl in *; (split; [|done]); rewrite <- Hw, <- Hl; done. }
  destruct H2 as (HL2 & HA2 & Hsd2 & Hc2).
  destruct (_ || _).
  - destruct (asyncFlush (m_config s2)).
    + simplify_eq. done.
    + destruct (performFlush_keeps_ledger _ _ _ _ _ _ Hi HL2 HA2)
        as (HL' & HA' & Hsd' & Hc').
      split; [done|]. split; [done|].
      split; [by rewrite Hsd'|by rewrite Hc'].
  - simplify_eq. done.
Qed.

(** The probe writes the dedup state and nothing else. *)
Lemma shouldDeduplicate_frame (s s' : BufferedLogger) (h now : Z) (b : bool) :
  shouldDeduplicate s h now = Some (b, s') ->
  exists m w i, s' = set_dedupe s m w i.
Proof.
  unfold shouldDeduplicate, dedupe_track. intros Hp.
  destruct (dedupe_hit s h now); simplify_eq; [eauto|].
  destruct (m_dedupeWindow s !! m_dedupeWindowIndex s); simplify_eq/=.
  eauto.
Qed.

Lemma log_keeps_ledger (s s' : BufferedLogger) (out out' : Sinks)
    (env : Env) (lvl : LogLevel) (msg : string) (a : Z) :
  log s out env lvl msg = Some (s', out') ->
  ledger s -> accounts s a ->
  ledger s'
  /\ accounts s' (a + (if passes_filter (OpLog env lvl msg) s then 1 else 0))
  /\ m_shutdown s' = m_shutdown s.
Proof.
  unfold log, passes_filter. intros Hlog HL HA.
  destruct (level_ltb lvl (minimumLevel (m_config s))); simpl.
  { simplify_eq. rewrite Z.add_0_r. done. }
  destruct (enableDeduplication_flag (m_config s)).
  - destruct (shouldDeduplicate s _ _) as [[dup s1]|] eqn:Hp; simplify_eq/=.
    destruct (shouldDeduplicate_frame _ _ _ _ _ Hp) as (m & w & i & ->).
    destruct dup; simplify_eq.
    + destruct HL as (Hl & Hf & Ho). unfold ledger, accounts in *.
      destruct s as [c p q u m0 w0 i0 th sd ff fs cb st].
      unfold currentBuffer, otherBuffer in *. simpl in *.
      split; [done|]. split; [|done].
      rewrite wrap64_add_r.
      replace (totalLogged st + (totalDeduplicated st + 1))
        with (totalLogged st + totalDeduplicated st + 1) by lia.
      by rewrite <- wrap64_add_l, HA, wrap64_add_l.
    + destruct (internalLog _ out env _) as [s2 out2] eqn:Hi.
      simplify_eq.
      assert (HL1 : ledger (set_dedupe s m w i)) by done.
      assert (HA1 : accounts (set_dedupe s m w i) a) by done.
      destruct (internalLog_keeps_ledger _ _ _ _ _ _ _ Hi HL1 HA1)
        as (? & ? & ? & ?).
      done.
  - destruct (internalLog s out env _) as [s2 out2] eqn:Hi. simplify_eq.
    destruct (internalLog_keeps_ledger _ _ _ _ _ _ _ Hi HL HA)
      as (? & ? & ? & ?).
    done.
Qed.

Lemma step_keeps_ledger (op : Op) (s s' : BufferedLogger)
    (out out' : Sinks) (a : Z) :
  is_shutdown op = false ->
  step op (s, out) = Some (s', out') ->
  ledger s -> accounts s a ->
  ledger s'
  /\ accounts s' (a + (if passes_filter op s then 1 else 0))
  /\ m_shutdown s' = m_shutdown s.
Proof.
  intros Hns Hstep HL HA.
  destruct op as [env lvl msg|env|env|env|lvl|enable|callable|env];
    simpl in Hstep; try discriminate Hns.
  - by eapply log_keeps_ledger.
  - simpl. rewrite Z.add_0_r. unfold flush in Hstep.
    destruct (asyncFlush (m_config s)); simplify_eq; [done|].
    destruct (performFlush s out env) as [s1 out1] eqn:Hp. simplify_eq.
    destruct (performFlush_keeps_ledger _ _ _ _ _ _ Hp HL HA)
      as (? & ? & ? & ?); done.
  - simpl. rewrite Z.add_0_r. unfold forceFlush in Hstep.
    destruct (performFlush s out env) as [s1 out1] eqn:Hp. simplify_eq.
    destruct (performFlush_keeps_ledger _ _ _ _ _ _ Hp HL HA)
      as (? & ? & ? & ?); done.
  - simpl. rewrite Z.add_0_r. unfold flushWorker_turn in Hstep.
    destruct (_ && _); simplify_eq; [|done].
    destruct (performFlush s out env) as [s1 out1] eqn:Hp. simplify_eq.
    destruct (performFlush_keeps_ledger _ _ _ _ _ _ Hp HL HA)
      as (? & ? & ? & ?); done.
  - simpl. rewrite Z.add_0_r. simplify_eq. done.
  - simpl. rewrite Z.add_0_r. simplify_eq.
    unfold enableDeduplication. destruct enable; done.
  - simpl. rewrite Z.add_0_r. simplify_eq. done.
Qed.

Lemma run_keeps_ledger (ops : list Op) (s s' : BufferedLogger)
    (out out' : Sinks) (a : Z) :
  Forall (fun op => is_shutdown op = false) ops ->
  run ops (s, out) = Some (s', out') ->
  ledger s -> accounts s a ->
  ledger s' /\ accounts s' (a + accepted ops (s, out))
  /\ m_shutdown s' = m_shutdown s.
Proof.
  intros Hops. revert s out a.
  induction Hops as [|op ops Hop Hops IH]; intros s out a Hrun HL HA.
  - simpl in *. simplify_eq. by rewrite Z.add_0_r.
  - cbn [run] in Hrun. cbn [accepted fst].
    destruct (step op (s, out)) as [[s1 out1]|] eqn:Hstep;
      simpl in Hrun; [|done].
    destruct (step_keeps_ledger _ _ _ _ _ _ Hop Hstep HL HA)
      as (HL1 & HA1 & Hsd1).
    destruct (IH _ _ _ Hrun HL1 HA1) as (HL' & HA' & Hsd').
    split; [done|]. split; [|congruence].
    by rewrite Z.add_assoc.
Qed.

Lemma construct_ledger (config : Config) (opens : bool) :
  ledger (construct config opens).1
  /\ accounts (construct config opens).1 0
  /\ m_shutdown (construct config opens).1 = false.
Proof. done. Qed.

(** C1, as the code has it. After any run of calls without a shutdown,
    followed by [shutdown], both buffers are empty and [totalFlushed] equals
    [totalLogged]: [totalLogged] counts the records appended to a buffer, so
    the suppressed ones are not part of it. Counted from the submissions that
    passed the level filter, the identity of the specification holds (in
    [size_t]): accepted minus [totalDeduplicated] is [totalFlushed]. *)
Theorem shutdown_flushes_all_logged
    (config : Config) (opens : bool) (ops : list Op) (env : Env)
    (s : BufferedLogger) (out : Sinks) :
  Forall (fun op => is_shutdown op = false) ops ->
  run (ops ++ [OpShutdown env]) (construct config opens) = Some (s, out) ->
  totalFlushed (m_stats s) = totalLogged (m_stats s)
  /\ wrap64 (accepted ops (construct config opens)
             - totalDeduplicated (m_stats s))
     = totalFlushed (m_stats s)
  /\ m_primaryBuffer s = [] /\ m_secondaryBuffer s = [].
Proof.
  intros Hops Hrun. rewrite run_app in Hrun.
  destruct (construct config opens) as [s0 out0] eqn:Hc.
  destruct (run ops (s0, out0)) as [[s1 out1]|] eqn:Hr1; [|done].
  destruct (construct_ledger config opens) as (HL0 & HA0 & Hsd0).
  rewrite Hc in HL0, HA0, Hsd0. simpl in HL0, HA0, Hsd0.
  destruct (run_keeps_ledger _ _ _ _ _ _ Hops Hr1 HL0 HA0)
    as (HL1 & HA1 & Hsd1).
  rewrite Hsd0 in Hsd1. simpl in Hrun. unfold shutdown in Hrun.
  rewrite Hsd1 in Hrun. unfold forceFlush in Hrun.
  destruct (performFlush _ out1 env) as [s2 out2] eqn:Hp.
  simplify_eq.
  assert (HLa : ledger (set_lifecycle s1 false true (m_fileStream s1)))
    by done.
  assert (HAa : accounts (set_lifecycle s1 false true (m_fileStream s1))
                  (accepted ops (s0, out0))) by done.
  destruct (performFlush_keeps_ledger _ _ _ _ _ _ Hp HLa HAa)
    as ((Hl & Hf & Ho) & HA2 & _).
  destruct HLa as (_ & _ & Hoa).
  destruct (performFlush_ledger _ _ _ _ _ Hp Hoa) as (Hc2 & Ho2 & _).
  rewrite Hc2 in Hl. simpl in Hl. rewrite Z.add_0_r, <- Hf in Hl.
  unfold accounts in HA2.
  destruct s2 as [c p q u m w i th sd ff fs cb st].
  unfold currentBuffer, otherBuffer in *. simpl in *.
  split; [done|]. split.
  - replace (accepted ops (s0, out0) - totalDeduplicated st)
      with (accepted ops (s0, out0) + - totalDeduplicated st) by lia.
    rewrite <- wrap64_add_l, <- HA2, wrap64_add_l.
    replace (totalLogged st + totalDeduplicated st + - totalDeduplicated st)
      with (totalLogged st) by lia.
    rewrite Hl. by rewrite <- Hf.
  - destruct u; done.
Qed.

Lemma shutdown_flushes_all_logged_witness :
  totalFlushed (m_stats dup_final.1) = totalLogged (m_stats dup_final.1)
  /\ wrap64 (accepted dup_ops (construct sync_Config true)
             - totalDeduplicated (m_stats dup_final.1))
     = totalFlushed (m_stats dup_final.1)
  /\ m_primaryBuffer dup_final.1 = [] /\ m_secondaryBuffer dup_final.1 = [].
Proof.
  apply (shutdown_flushes_all_logged sync_Config true dup_ops
           (env_at 3000000) dup_final.1 dup_final.2).
  - repeat constructor.
  - vm_compute. reflexivity.
Defined.

(** C1 as stated fails: the same message submitted twice within the time
    window and a shutdown leave [totalLogged = 1], [totalDeduplicated = 1]
    and [totalFlushed = 1], so [totalLogged - totalDeduplicated] is not
    [totalFlushed]. *)
Lemma stats_identity_fails_with_dedup :
  exists (s : BufferedLogger) (out : Sinks),
    dup_run = Some (s, out)
    /\ totalLogged (m_stats s) = 1
    /\ totalDeduplicated (m_stats s) = 1
    /\ totalFlushed (m_stats s) = 1
    /\ totalLogged (m_stats s) - totalDeduplicated (m_stats s)
       <> totalFlushed (m_stats s).
Proof.
  exists dup_final.1, dup_final.2.
  split; [vm_compute; reflexivity|].
  repeat split; [vm_compute; reflexivity..|].
  vm_compute. discriminate.
Qed.

(** ** Occurrence counts of buffered records *)

Lemma string_app_empty_r (a : string) : (a ++ "")%string = a.
Proof.
  induction a as [|x a IH]; [done|].
  change (String x (a ++ "") = String x a)%string. by rewrite IH.
Qed.

Lemma submitted_by_count_one (ops : list Op) (e : LogEntry) :
  submitted_by ops e -> count e = 1.
Proof. by intros (env & lvl & msg & h & _ & ->). Qed.

(** The formatter adds nothing after the message of a submitted record. *)
Lemma formatLogEntry_submitted (ops : list Op) (wall : Env) (e : LogEntry) :
  submitted_by ops e -> message_line ops (formatLogEntry wall e).
Proof.
  intros (env & lvl & msg & h & Hin & ->).
  exists wall, env, lvl, msg, h. split; [done|]. split; [done|].
  unfold formatLogEntry, repeated_suffix, level_field, thread_field. simpl.
  by rewrite string_app_empty_r, !string_app_assoc.
Qed.

Lemma buffers_submitted (ops : list Op) (s : BufferedLogger) :
  Forall (submitted_by ops) (m_primaryBuffer s)
  /\ Forall (submitted_by ops) (m_secondaryBuffer s)
  <-> Forall (submitted_by ops) (currentBuffer s)
      /\ Forall (submitted_by ops) (otherBuffer s).
Proof.
  unfold currentBuffer, otherBuffer.
  destruct (m_useSecondaryBuffer s); tauto.
Qed.

Lemma performFlush_counts_one (ops : list Op) (s : BufferedLogger)
    (out : Sinks) (env : Env) :
  counts_one ops (s, out) -> counts_one ops (performFlush s out env).
Proof.
  unfold performFlush. intros Hinv.
  destruct (currentBuffer s) as [|e batch] eqn:Hc; [done|].
  destruct Hinv as (Hp & Hq & Hcb & Hfile & Hcon). simpl in *.
  assert (Hbatch : Forall (submitted_by ops) (e :: batch)).
  { rewrite <- Hc. apply buffers_submitted. done. }
  assert (Hlines : Forall (message_line ops)
                     (formatLogEntry env <$> e :: batch)).
  { apply Forall_fmap. eapply Forall_impl; [exact Hbatch|].
    intros x Hx. by apply formatLogEntry_submitted. }
  destruct s as [c p q u m w i th sd ff fs cb st].
  unfold counts_one, emit_batch, currentBuffer in *. simpl in *.
  split; [destruct u; simpl; done|].
  split; [destruct u; simpl; done|].
  split; [destruct cb; [apply Forall_app; split; [done|by constructor]|done]|].
  split.
  - destruct fs; [apply Forall_app; done|done].
  - destruct (consoleOutput c); [apply Forall_app; done|done].
Qed.

Lemma internalLog_counts_one (ops : list Op) (s : BufferedLogger)
    (out : Sinks) (env : Env) (e : LogEntry) :
  submitted_by ops e ->
  counts_one ops (s, out) -> counts_one ops (internalLog s out env e).
Proof.
  unfold internalLog. intros He Hinv.
  set (s1 := set_currentBuffer s (currentBuffer s ++ [e])).
  set (s2 := set_stats s1 _).
  assert (H2 : counts_one ops (s2, out)).
  { destruct Hinv as (Hp & Hq & Hrest). subst s2 s1.
    destruct s as [c p q u m w i th sd ff fs cb st].
    unfold counts_one, currentBuffer in *. simpl in *.
    destruct u; simpl; (split; [|split]); try done;
      apply Forall_app; split; try done; by constructor. }
  destruct (_ || _); [|done].
  destruct (asyncFlush (m_config s2)); [done|].
  by apply performFlush_counts_one.
Qed.

Lemma step_counts_one (ops : list Op) (op : Op)
    (st st' : BufferedLogger * Sinks) :
  op ∈ ops ->
  step op st = Some st' -> counts_one ops st -> counts_one ops st'.
Proof.
  destruct st as [s out]. intros Hin.
  destruct op as [env lvl msg|env|env|env|lvl|enable|callable|env];
    simpl; intros Hstep Hinv; simplify_eq.
  - assert (Hnew : forall h,
              submitted_by ops
                (new_LogEntry (now_entry env) (this_thread env) lvl msg h)).
    { intros h. by exists env, lvl, msg, h. }
    unfold log in Hstep.
    destruct (level_ltb lvl (minimumLevel (m_config s))); simplify_eq;
      [done|].
    destruct (enableDeduplication_flag (m_config s)).
    + destruct (shouldDeduplicate s _ _) as [[dup s1]|] eqn:Hp;
        simplify_eq/=.
      destruct (shouldDeduplicate_frame _ _ _ _ _ Hp) as (m & w & i & ->).
      destruct dup; simplify_eq; [done|].
      by apply internalLog_counts_one.
    + simplify_eq. by apply internalLog_counts_one.
  - unfold flush. destruct (asyncFlush (m_config s)); [done|].
    by apply performFlush_counts_one.
  - by apply performFlush_counts_one.
  - unfold flushWorker_turn. destruct (_ && _); [|done].
    by apply performFlush_counts_one.
  - done.
  - unfold enableDeduplication. destruct enable; done.
  - done.
  - unfold shutdown. destruct (m_shutdown s); [done|]. unfold forceFlush.
    pose proof (performFlush_counts_one ops
                  (set_lifecycle s false true (m_fileStream s)) out env)
      as Hpf.
    destruct (performFlush _ out env) as [s2 out2]. by apply Hpf.
Qed.

(** C10. In every state reached from the constructor, every record in
    either buffer has [count = 1], and so has every record handed to the
    callback; and every line written to the file or to the console is the
    header of a record submitted in the run followed by the message of that
    submission, and ends there: the formatter has added no repetition text
    after the message. *)
Theorem appended_records_count_one
    (config : Config) (opens : bool) (ops : list Op)
    (s : BufferedLogger) (out : Sinks) :
  run ops (construct config opens) = Some (s, out) ->
  Forall (fun e => count e = 1) (m_primaryBuffer s)
  /\ Forall (fun e => count e = 1) (m_secondaryBuffer s)
  /\ Forall (Forall (fun e => count e = 1)) (callback_batches out)
  /\ Forall (message_line ops) (file_lines out)
  /\ Forall (message_line ops) (console_lines out).
Proof.
  assert (Hgen : forall rest st st',
            rest ⊆ ops ->
            run rest st = Some st' -> counts_one ops st -> counts_one ops st').
  { induction rest as [|op rest IH]; intros st st' Hsub Hrun Hinv.
    - simpl in Hrun. by simplify_eq.
    - cbn [run] in Hrun.
      destruct (step op st) as [st1|] eqn:Hstep; simpl in Hrun; [|done].
      eapply IH; [|exact Hrun|].
      + intros x Hx. apply Hsub. by right.
      + eapply step_counts_one; [|exact Hstep|exact Hinv].
        apply Hsub. left. }
  intros Hrun.
  assert (Hinv : counts_one ops (s, out)).
  { apply (Hgen ops _ _ (reflexivity _) Hrun).
    unfold counts_one, construct. simpl. repeat split; constructor. }
  destruct Hinv as (Hp & Hq & Hcb & Hfile & Hcon). simpl in *.
  split; [eapply Forall_impl; [exact Hp|apply submitted_by_count_one]|].
  split; [eapply Forall_impl; [exact Hq|apply submitted_by_count_one]|].
  split; [|done].
  eapply Forall_impl; [exact Hcb|]. intros b Hb.
  eapply Forall_impl; [exact Hb|apply submitted_by_count_one].
Qed.

Lemma appended_records_count_one_witness :
  Forall (fun e => count e = 1) (m_primaryBuffer dup_final.1)
  /\ Forall (fun e => count e = 1) (m_secondaryBuffer dup_final.1)
  /\ Forall (Forall (fun e => count e = 1)) (callback_batches dup_final.2)
  /\ Forall (message_line (dup_ops ++ [OpShutdown (env_at 3000000)]))
       (file_lines dup_final.2)
  /\ Forall (message_line (dup_ops ++ [OpShutdown (env_at 3000000)]))
       (console_lines dup_final.2).
Proof.
  apply (appended_records_count_one sync_Config true
           (dup_ops ++ [OpShutdown (env_at 3000000)])
           dup_final.1 dup_final.2).
  vm_compute. reflexivity.
Defined.

(** ** Witnesses of the local properties *)

Lemma shouldDeduplicate_suppress_iff_witness :
  exists s',
    shouldDeduplicate seen_5 5 1000000000 = Some (true, s')
    /\ m_dedupeMap s' !! 5 = Some (mkDedupeInfo 1000000000 2)
    /\ m_dedupeMap s' !! 7 = None
    /\ m_dedupeWindow s' = [5]
    /\ m_dedupeWindowIndex s' = 0%nat.
Proof.
  destruct (shouldDeduplicate_suppress_iff seen_5 5 1000000000)
    as (Hiff & Hupd & _ & _).
  destruct Hiff as [_ Hiff].
  destruct Hiff as [s' Hs'].
  { exists (mkDedupeInfo 0 1). split; vm_compute; reflexivity. }
  exists s'. split; [exact Hs'|].
  destruct (Hupd s' Hs')
    as (info & Hinfo & Hkey & Hrest & Hring & Hcur & _).
  assert (info = mkDedupeInfo 0 1) as ->
    by (vm_compute in Hinfo; congruence).
  split; [exact Hkey|].
  split; [rewrite (Hrest 7) by lia; vm_compute; reflexivity|].
  split; [rewrite Hring; reflexivity|].
  rewrite Hcur. reflexivity.
Defined.

Lemma shouldDeduplicate_pass_effects_witness :
  shouldDeduplicate seen_5 7 6000000000 = Some (false, seen_5_then_7)
  /\ m_dedupeMap seen_5_then_7 !! 5 = None
  /\ m_dedupeMap seen_5_then_7 !! 7 = Some (mkDedupeInfo 6000000000 1)
  /\ m_dedupeWindow seen_5_then_7 = [7]
  /\ m_dedupeWindowIndex seen_5_then_7 = 0%nat.
Proof.
  assert (Hp : shouldDeduplicate seen_5 7 6000000000
               = Some (false, seen_5_then_7)) by (vm_compute; reflexivity).
  destruct (shouldDeduplicate_pass_effects _ _ _ _ Hp)
    as (old & Hold & _ & Hevict & _ & _ & _ & Hkey & Hring & _ & Hcur & _).
  assert (old = 5) as -> by (vm_compute in Hold; congruence).
  split; [exact Hp|].
  split.
  { apply (Hevict (mkDedupeInfo 0 1)); [lia|reflexivity|].
    vm_compute. discriminate. }
  split; [apply Hkey; vm_compute; reflexivity|].
  split; [rewrite Hring; reflexivity|].
  rewrite Hcur. reflexivity.
Defined.

Lemma log_below_minimum_level_witness :
  log (construct sync_Config true).1 no_output (env_at 1000000)
      TRACE "too quiet"
  = Some ((construct sync_Config true).1, no_output)
  /\ forall rest : list Op,
       run (OpLog (env_at 1000000) TRACE "too quiet" :: rest)
           ((construct sync_Config true).1, no_output)
       = run rest ((construct sync_Config true).1, no_output).
Proof.
  apply log_below_minimum_level. vm_compute. reflexivity.
Defined.

Lemma performFlush_empty_noop_witness :
  performFlush (construct sync_Config true).1 no_output (env_at 1000000)
  = ((construct sync_Config true).1, no_output).
Proof.
  apply performFlush_empty_noop. reflexivity.
Defined.

(** ** Life cycle *)

(** [log] never reads [m_shutdown]: it does to a logger that has been shut
    down what it does to the same logger before. *)
Lemma log_ignores_shutdown_flag
    (s : BufferedLogger) (out : Sinks) (env : Env)
    (lvl : LogLevel) (msg : string) (down : bool) :
  log (set_lifecycle s (m_flushThread s) down (m_fileStream s))
      out env lvl msg
  = (fun r : BufferedLogger * Sinks =>
       (set_lifecycle r.1 (m_flushThread r.1) down (m_fileStream r.1), r.2))
    <$> log s out env lvl msg.
Proof.
  unfold log. simpl.
  destruct (level_ltb lvl (minimumLevel (m_config s))); [done|].
  assert (Hint : forall (t : BufferedLogger) (e : LogEntry),
            internalLog
              (set_lifecycle t (m_flushThread t) down (m_fileStream t))
              out env e
            = (set_lifecycle (internalLog t out env e).1
                 (m_flushThread (internalLog t out env e).1) down
                 (m_fileStream (internalLog t out env e).1),
               (internalLog t out env e).2)).
  { intros t e. unfold internalLog. simpl.
    destruct t as [c p q u m w i th sd ff fs cb st].
    unfold estimateMemoryUsage, currentBuffer. simpl.
    destruct (_ || _); [|done].
    destruct (asyncFlush c); [done|].
    unfold performFlush, currentBuffer. simpl.
    destruct u; simpl.
    - destruct (q ++ [e]) eqn:Hq; [done|]. done.
    - destruct (p ++ [e]) eqn:Hp; [done|]. done. }
  destruct (enableDeduplication_flag (m_config s)).
  - unfold shouldDeduplicate, dedupe_hit, dedupe_track. simpl.
    destruct (m_dedupeMap s !! computeHash msg lvl) as [info|]; simpl.
    + destruct (_ <? _); simpl; [done|].
      destruct (m_dedupeWindow s !! m_dedupeWindowIndex s); simpl; [|done].
      f_equal. apply (Hint (set_dedupe s _ _ _)).
    + destruct (m_dedupeWindow s !! m_dedupeWindowIndex s); simpl; [|done].
      f_equal. apply (Hint (set_dedupe s _ _ _)).
  - simpl. f_equal. apply Hint.
Qed.

(** C2. On a default-configured logger that has been shut down,
    [log(INFO, "After shutdown")] is not a no-op: the record is appended to
    the active buffer, [totalLogged] and the buffer depth go from 0 to 1 and
    the dedup cache gains its fingerprint. With synchronous flushing, console
    output and a buffer of one record, the record is drained at once and its
    line is written to the console. *)
Theorem log_after_shutdown_appends :
  (exists (s : BufferedLogger) (out : Sinks),
     after_shutdown default_Config = Some (s, out)
     /\ m_shutdown (shut_down default_Config).1 = true
     /\ currentBuffer (shut_down default_Config).1 = []
     /\ message <$> currentBuffer s = ["After shutdown"%string]
     /\ totalLogged (m_stats (shut_down default_Config).1) = 0
     /\ totalLogged (m_stats s) = 1
     /\ currentBufferSize (m_stats s) = 1
     /\ m_dedupeMap (shut_down default_Config).1 = ∅
     /\ m_dedupeMap s
        = {[computeHash "After shutdown" INFO := mkDedupeInfo 2000000 1]})
  /\ (exists (s : BufferedLogger) (out : Sinks),
        after_shutdown console_Config = Some (s, out)
        /\ console_lines (shut_down console_Config).2 = []
        /\ console_lines out
           = ["[2024-01-01 00:00:00.002] [INFO ] [T:beef] After shutdown"
             %string]
        /\ totalFlushed (m_stats s) = 1).
Proof.
  split.
  - exists (default (shut_down default_Config)
              (after_shutdown default_Config)).1,
           (default (shut_down default_Config)
              (after_shutdown default_Config)).2.
    repeat (split; [vm_compute; reflexivity|]). vm_compute. reflexivity.
  - exists (default (shut_down console_Config)
              (after_shutdown console_Config)).1,
           (default (shut_down console_Config)
              (after_shutdown console_Config)).2.
    repeat (split; [vm_compute; reflexivity|]). vm_compute. reflexivity.
Qed.

(** ** The eviction ring *)

(** With deduplication enabled and an empty ring, a submission that passes
    the level filter and finds no recent entry reads a slot that does not
    exist. *)
Lemma log_undefined_on_empty_ring
    (s : BufferedLogger) (out : Sinks) (env : Env)
    (lvl : LogLevel) (msg : string) :
  enableDeduplication_flag (m_config s) = true ->
  m_dedupeWindow s = [] ->
  m_dedupeMap s = ∅ ->
  level_ltb lvl (minimumLevel (m_config s)) = false ->
  log s out env lvl msg = None.
Proof.
  intros Hen Hring Hmap Hlvl.
  unfold log, shouldDeduplicate, dedupe_hit, dedupe_track.
  rewrite Hlvl, Hen, Hmap, Hring, lookup_empty. done.
Qed.

(** C9. A logger constructed with deduplication off and then told
    [enableDeduplication(true)] has deduplication enabled and an empty ring:
    the slot under the cursor does not exist, and the next submission reads
    it. *)
Theorem enableDeduplication_true_leaves_ring_empty :
  let s := enableDeduplication (construct nodedup_Config true).1 true in
  enableDeduplication_flag (m_config s) = true
  /\ m_dedupeWindow s = []
  /\ m_dedupeWindow s !! m_dedupeWindowIndex s = None
  /\ log s no_output (env_at 1000000) INFO "x" = None
  /\ run [OpEnableDeduplication true; OpLog (env_at 1000000) INFO "x"]
         (construct nodedup_Config true) = None.
Proof. repeat (split; [vm_compute; reflexivity|]). vm_compute. reflexivity. Qed.

(** The constructor sizes the ring when deduplication is enabled; no call
    resizes it afterwards. *)
Lemma construct_ring (config : Config) (opens : bool) :
  m_dedupeWindow (construct config opens).1
  = if enableDeduplication_flag config
    then replicate (deduplicationWindowSize config) 0 else [].
Proof. done. Qed.

Lemma performFlush_ring (s : BufferedLogger) (out : Sinks) (env : Env) :
  m_dedupeWindow (performFlush s out env).1 = m_dedupeWindow s
  /\ m_dedupeWindowIndex (performFlush s out env).1 = m_dedupeWindowIndex s.
Proof. unfold performFlush. destruct (currentBuffer s); done. Qed.

Lemma internalLog_ring (s : BufferedLogger) (out : Sinks) (env : Env)
    (e : LogEntry) :
  m_dedupeWindow (internalLog s out env e).1 = m_dedupeWindow s
  /\ m_dedupeWindowIndex (internalLog s out env e).1 = m_dedupeWindowIndex s.
Proof.
  unfold internalLog. destruct (_ || _); [|done].
  destruct (asyncFlush _); [done|].
  match goal with
  | |- context [performFlush ?t ?o ?en] =>
      destruct (performFlush_ring t o en) as [-> ->]
  end.
  done.
Qed.

(** Rewrite the ring of the result of a drain or of an append, as named by
    a hypothesis, to the ring it started from. *)
Ltac ring_of_result :=
  match goal with
  | H : performFlush ?t ?o ?en = _ |- _ =>
      let Hw := fresh "Hw" in
      pose proof (proj1 (performFlush_ring t o en)) as Hw;
      rewrite H in Hw; simpl in Hw; rewrite Hw
  | H : internalLog ?t ?o ?en ?e = _ |- _ =>
      let Hw := fresh "Hw" in
      pose proof (proj1 (internalLog_ring t o en e)) as Hw;
      rewrite H in Hw; simpl in Hw; rewrite Hw
  end.

Lemma step_ring_length (op : Op) (s s' : BufferedLogger) (out out' : Sinks) :
  step op (s, out) = Some (s', out') ->
  length (m_dedupeWindow s') = length (m_dedupeWindow s).
Proof.
  destruct op as [env lvl msg|env|env|env|lvl|enable|callable|env];
    simpl; intros Hstep; simplify_eq.
  - unfold log in Hstep.
    destruct (level_ltb _ _); simplify_eq; [done|].
    destruct (enableDeduplication_flag _).
    + unfold shouldDeduplicate, dedupe_track in Hstep.
      destruct (dedupe_hit s _ _); simplify_eq/=; [done|].
      destruct (m_dedupeWindow s !! m_dedupeWindowIndex s); simplify_eq/=.
      ring_of_result. simpl. by rewrite length_insert.
    + simplify_eq. by ring_of_result.
  - unfold flush in *. destruct (asyncFlush _); simplify_eq; [done|].
    by ring_of_result.
  - unfold forceFlush in *. by ring_of_result.
  - unfold flushWorker_turn in *. destruct (_ && _); simplify_eq; [|done].
    by ring_of_result.
  - done.
  - unfold enableDeduplication. destruct enable; simpl; [done|].
    by rewrite length_fmap.
  - done.
  - unfold shutdown, forceFlush in *. destruct (m_shutdown s); simplify_eq;
      [done|].
    destruct (performFlush _ out env) as [s2 out2] eqn:Hp. simplify_eq.
    simpl. by ring_of_result.
Qed.

(** With the cursor inside the ring the probe is defined, and leaves the
    cursor inside the ring. *)
Lemma shouldDeduplicate_defined (s : BufferedLogger) (h now : Z) :
  ring_ok s ->
  exists b s', shouldDeduplicate s h now = Some (b, s') /\ ring_ok s'.
Proof.
  unfold shouldDeduplicate, dedupe_track, ring_ok. intros Hok.
  destruct (dedupe_hit s h now) as [info|]; [by eauto|].
  destruct (lookup_lt_is_Some_2 _ _ Hok) as [old Hold]. rewrite Hold. simpl.
  eexists _, _. split; [done|]. simpl. rewrite length_insert.
  apply Nat.mod_upper_bound. lia.
Qed.

Lemma step_defined (op : Op) (s : BufferedLogger) (out : Sinks) :
  ring_ok s ->
  exists s' out', step op (s, out) = Some (s', out') /\ ring_ok s'.
Proof.
  intros Hok.
  assert (Hpf : forall t o env, ring_ok t -> ring_ok (performFlush t o env).1).
  { intros t o env. unfold ring_ok.
    by destruct (performFlush_ring t o env) as [-> ->]. }
  assert (Hil : forall t o env e,
            ring_ok t -> ring_ok (internalLog t o env e).1).
  { intros t o env e. unfold ring_ok.
    by destruct (internalLog_ring t o env e) as [-> ->]. }
  destruct op as [env lvl msg|env|env|env|lvl|enable|callable|env]; simpl.
  - unfold log. destruct (level_ltb _ _); [by eauto|].
    destruct (enableDeduplication_flag _).
    + destruct (shouldDeduplicate_defined s (computeHash msg lvl)
                  (now_probe env) Hok) as (b & s1 & -> & Hok1).
      simpl. destruct b; [by eauto|].
      destruct (internalLog s1 out env _) as [s2 out2] eqn:Hi.
      eexists _, _. split; [done|].
      match type of Hi with
      | internalLog _ _ _ ?e = _ => pose proof (Hil s1 out env e Hok1) as Hr
      end.
      by rewrite Hi in Hr.
    + destruct (internalLog s out env _) as [s2 out2] eqn:Hi.
      eexists _, _. split; [done|].
      match type of Hi with
      | internalLog _ _ _ ?e = _ => pose proof (Hil s out env e Hok) as Hr
      end.
      by rewrite Hi in Hr.
  - unfold flush. destruct (asyncFlush _); [by eauto|].
    destruct (performFlush s out env) as [s2 out2] eqn:Hp.
    eexists _, _. split; [done|].
    specialize (Hpf s out env Hok). by rewrite Hp in Hpf.
  - unfold forceFlush.
    destruct (performFlush s out env) as [s2 out2] eqn:Hp.
    eexists _, _. split; [done|].
    specialize (Hpf s out env Hok). by rewrite Hp in Hpf.
  - unfold flushWorker_turn. destruct (_ && _); [|by eauto].
    destruct (performFlush s out env) as [s2 out2] eqn:Hp.
    eexists _, _. split; [done|].
    specialize (Hpf s out env Hok). by rewrite Hp in Hpf.
  - by eauto.
  - eexists _, _. split; [done|].
    unfold enableDeduplication, ring_ok in *.
    destruct enable; simpl; [done|]. rewrite length_fmap. lia.
  - by eauto.
  - unfold shutdown, forceFlush. destruct (m_shutdown s); [by eauto|].
    specialize (Hpf (set_lifecycle s false true (m_fileStream s)) out env Hok).
    destruct (performFlush _ out env) as [s2 out2].
    eexists _, _. split; [done|]. done.
Qed.

(** A logger constructed with deduplication enabled and a ring of at least
    one slot runs every sequence of calls to the end. *)
Lemma run_defined (config : Config) (opens : bool) (ops : list Op) :
  enableDeduplication_flag config = true ->
  (0 < deduplicationWindowSize config)%nat ->
  is_Some (run ops (construct config opens)).
Proof.
  intros Hen Hsize.
  assert (Hgen : forall s out, ring_ok s -> is_Some (run ops (s, out))).
  { induction ops as [|op rest IH]; intros s out Hok; [by eexists|].
    cbn [run].
    destruct (step_defined op s out Hok) as (s1 & out1 & -> & Hok1).
    simpl. by apply IH. }
  apply Hgen. unfold ring_ok, construct. simpl.
  rewrite Hen, length_replicate. done.
Qed.

(** ** Runs without deduplication *)

Lemma performFlush_config (s : BufferedLogger) (out : Sinks) (env : Env) :
  m_config (performFlush s out env).1 = m_config s.
Proof. unfold performFlush. destruct (currentBuffer s); done. Qed.

Lemma internalLog_config (s : BufferedLogger) (out : Sinks) (env : Env)
    (e : LogEntry) :
  m_config (internalLog s out env e).1 = m_config s.
Proof.
  unfold internalLog. destruct (_ || _); [|done].
  destruct (asyncFlush _); [done|]. by rewrite performFlush_config.
Qed.

Lemma step_defined_without_dedup (op : Op) (s : BufferedLogger) (out : Sinks) :
  enables_dedup op = false ->
  enableDeduplication_flag (m_config s) = false ->
  exists s' out',
    step op (s, out) = Some (s', out')
    /\ enableDeduplication_flag (m_config s') = false.
Proof.
  intros Hop Hoff.
  destruct op as [env lvl msg|env|env|env|lvl|enable|callable|env]; simpl.
  - unfold log. rewrite Hoff. destruct (level_ltb _ _); [by eauto|].
    eexists _, _. split; [by rewrite <- surjective_pairing|].
    by rewrite internalLog_config.
  - eexists _, _. split; [by rewrite <- surjective_pairing|].
    unfold flush. destruct (asyncFlush _); [done|].
    by rewrite performFlush_config.
  - eexists _, _. split; [by rewrite <- surjective_pairing|].
    unfold forceFlush. by rewrite performFlush_config.
  - eexists _, _. split; [by rewrite <- surjective_pairing|].
    unfold flushWorker_turn. destruct (_ && _); [|done].
    by rewrite performFlush_config.
  - by eauto.
  - destruct enable; [done|]. by eauto.
  - by eauto.
  - eexists _, _. split; [by rewrite <- surjective_pairing|].
    unfold shutdown, forceFlush. destruct (m_shutdown s); [done|].
    pose proof (performFlush_config
                  (set_lifecycle s false true (m_fileStream s)) out env) as Hc.
    destruct (performFlush _ out env) as [s2 out2]. simpl in *.
    by rewrite Hc.
Qed.

(** A logger constructed with deduplication off runs every sequence of calls
    that does not switch it on to the end. *)
Lemma run_defined_without_dedup
    (config : Config) (opens : bool) (ops : list Op) :
  enableDeduplication_flag config = false ->
  Forall (fun op => enables_dedup op = false) ops ->
  is_Some (run ops (construct config opens)).
Proof.
  intros Hoff Hops.
  assert (Hgen : forall s out,
            enableDeduplication_flag (m_config s) = false ->
            is_Some (run ops (s, out))).
  { induction Hops as [|op rest Hop Hrest IH]; intros s out Hs;
      [by eexists|].
    cbn [run].
    destruct (step_defined_without_dedup op s out Hop Hs)
      as (s1 & out1 & -> & Hs1).
    simpl. by apply IH. }
  by apply Hgen.
Qed.

(** * Further properties *)

(** ** Fingerprints *)

Lemma wrap32_range (n : Z) : 0 <= wrap32 n < 2 ^ 32.
Proof. unfold wrap32. apply Z.mod_pos_bound. lia. Qed.

Lemma wrap32_small (n : Z) : 0 <= n < 2 ^ 32 -> wrap32 n = n.
Proof. intros H. unfold wrap32. by apply Z.mod_small. Qed.

Lemma lxor_range (a b : Z) :
  0 <= a < 2 ^ 32 -> 0 <= b < 2 ^ 32 -> 0 <= Z.lxor a b < 2 ^ 32.
Proof.
  intros Ha Hb.
  assert (Hnn : 0 <= Z.lxor a b) by (apply Z.lxor_nonneg; lia).
  split; [done|].
  destruct (decide (Z.lxor a b = 0)) as [->|Hne]; [lia|].
  apply Z.log2_lt_pow2; [lia|].
  pose proof (Z.log2_lxor a b ltac:(lia) ltac:(lia)) as Hlog.
  assert (Hla : Z.log2 a < 32).
  { destruct (decide (a = 0)) as [->|]; [done|]. apply Z.log2_lt_pow2; lia. }
  assert (Hlb : Z.log2 b < 32).
  { destruct (decide (b = 0)) as [->|]; [done|]. apply Z.log2_lt_pow2; lia. }
  lia.
Qed.

Lemma lxor_cancel_r (a b x : Z) : Z.lxor a x = Z.lxor b x -> a = b.
Proof.
  intros H.
  assert (Hback : forall c, c = Z.lxor (Z.lxor c x) x).
  { intros c. by rewrite Z.lxor_assoc, Z.lxor_nilpotent, Z.lxor_0_r. }
  rewrite (Hback a), (Hback b). by rewrite H.
Qed.

Lemma lxor_cancel_l (h x y : Z) : Z.lxor h x = Z.lxor h y -> x = y.
Proof. rewrite !(Z.lxor_comm h). apply lxor_cancel_r. Qed.

(** Multiplication by the FNV prime is undone, modulo 2^32, by
    multiplication by 899433627. *)
Lemma fnv_prime_inverse (a : Z) :
  wrap32 (wrap32 (a * fnv_prime) * 899433627) = wrap32 a.
Proof.
  unfold wrap32, fnv_prime.
  rewrite Z.mul_mod_idemp_l by lia.
  replace (a * 16777619 * 899433627)
    with (a + a * 3513497 * 2 ^ 32) by lia.
  by rewrite Z.mod_add by lia.
Qed.

Lemma fnv_round_range (h x : Z) : 0 <= fnv_round h x < 2 ^ 32.
Proof. apply wrap32_range. Qed.

Lemma fnv_round_lxor_inj (a b : Z) :
  0 <= a < 2 ^ 32 -> 0 <= b < 2 ^ 32 ->
  wrap32 (a * fnv_prime) = wrap32 (b * fnv_prime) -> a = b.
Proof.
  intros Ha Hb H.
  rewrite <- (wrap32_small a), <- (wrap32_small b) by done.
  rewrite <- (fnv_prime_inverse a), <- (fnv_prime_inverse b). by rewrite H.
Qed.

Lemma fnv_round_inj_state (h1 h2 x : Z) :
  0 <= h1 < 2 ^ 32 -> 0 <= h2 < 2 ^ 32 -> 0 <= x < 2 ^ 32 ->
  fnv_round h1 x = fnv_round h2 x -> h1 = h2.
Proof.
  intros H1 H2 Hx H. unfold fnv_round in H.
  apply fnv_round_lxor_inj in H; [|by apply lxor_range..].
  by apply lxor_cancel_r in H.
Qed.

Lemma fnv_round_inj_input (h x y : Z) :
  0 <= h < 2 ^ 32 -> 0 <= x < 2 ^ 32 -> 0 <= y < 2 ^ 32 ->
  fnv_round h x = fnv_round h y -> x = y.
Proof.
  intros Hh Hx Hy H. unfold fnv_round in H.
  apply fnv_round_lxor_inj in H; [|by apply lxor_range..].
  by apply lxor_cancel_l in H.
Qed.

Lemma wrap32_negative (n : Z) : - 2 ^ 32 <= n < 0 -> wrap32 n = n + 2 ^ 32.
Proof.
  intros H. unfold wrap32. rewrite <- (Z.mod_add n 1) by lia.
  apply Z.mod_small. lia.
Qed.

Lemma char_to_uint32_range (c : ascii) : 0 <= char_to_uint32 c < 2 ^ 32.
Proof.
  unfold char_to_uint32. pose proof (N_ascii_bounded c).
  destruct (Z.ltb_spec (Z.of_N (N_of_ascii c)) 128); [lia|].
  apply wrap32_range.
Qed.

Lemma char_to_uint32_inj (c d : ascii) :
  char_to_uint32 c = char_to_uint32 d -> c = d.
Proof.
  unfold char_to_uint32.
  pose proof (N_ascii_bounded c) as Hc. pose proof (N_ascii_bounded d) as Hd.
  intros H.
  assert (Hn : N_of_ascii c = N_of_ascii d).
  { destruct (Z.ltb_spec (Z.of_N (N_of_ascii c)) 128);
      destruct (Z.ltb_spec (Z.of_N (N_of_ascii d)) 128);
      rewrite ?wrap32_negative in H by lia; lia. }
  rewrite <- (ascii_N_embedding c), <- (ascii_N_embedding d). by rewrite Hn.
Qed.

Lemma fnv_message_range (h : Z) (msg : string) :
  0 <= h < 2 ^ 32 -> 0 <= fnv_message h msg < 2 ^ 32.
Proof.
  revert h. induction msg as [|c rest IH]; intros h Hh; simpl; [done|].
  apply IH, fnv_round_range.
Qed.

Lemma fnv_message_inj (h1 h2 : Z) (msg : string) :
  0 <= h1 < 2 ^ 32 -> 0 <= h2 < 2 ^ 32 ->
  fnv_message h1 msg = fnv_message h2 msg -> h1 = h2.
Proof.
  revert h1 h2. induction msg as [|c rest IH]; intros h1 h2 H1 H2 H; simpl in H;
    [done|].
  apply IH in H; [|apply fnv_round_range..].
  by apply fnv_round_inj_state in H; [|done|done|apply char_to_uint32_range].
Qed.

Lemma fnv_message_app (h : Z) (a b : string) :
  fnv_message h (a ++ b) = fnv_message (fnv_message h a) b.
Proof.
  revert h. induction a as [|c a IH]; intros h; [done|].
  change (fnv_message (fnv_round h (char_to_uint32 c)) (a ++ b)
          = fnv_message (fnv_message (fnv_round h (char_to_uint32 c)) a) b).
  apply IH.
Qed.

Lemma level_seed_range (l : LogLevel) :
  0 <= fnv_round fnv_offset (level_ordinal l) < 2 ^ 32.
Proof. apply fnv_round_range. Qed.

Lemma level_ordinal_inj (l1 l2 : LogLevel) :
  level_ordinal l1 = level_ordinal l2 -> l1 = l2.
Proof. by destruct l1, l2. Qed.

Lemma computeHash_range (msg : string) (lvl : LogLevel) :
  0 <= computeHash msg lvl < 2 ^ 32.
Proof. apply fnv_message_range, level_seed_range. Qed.

(** X1. Two records with the same message and different levels never have
    the same fingerprint. (Records that differ in the message may share a
    fingerprint, whatever their levels.) *)
Theorem computeHash_level_injective (msg : string) (l1 l2 : LogLevel) :
  l1 <> l2 -> computeHash msg l1 <> computeHash msg l2.
Proof.
  unfold computeHash. intros Hne H. apply Hne.
  apply fnv_message_inj in H; [|apply level_seed_range..].
  apply fnv_round_inj_input in H.
  - by apply level_ordinal_inj.
  - by vm_compute.
  - destruct l1; by vm_compute.
  - destruct l2; by vm_compute.
Qed.

Lemma computeHash_level_injective_witness :
  computeHash "link up" INFO <> computeHash "link up" WARNING.
Proof. apply computeHash_level_injective. discriminate. Defined.

(** X2. Two records whose messages end with the same text have the same
    fingerprint exactly when the records without that text have; and two
    messages of one level that differ in one character only never have the
    same fingerprint. *)
Theorem computeHash_suffix_cancel
    (m1 m2 suffix : string) (l1 l2 : LogLevel) :
  (computeHash (m1 ++ suffix) l1 = computeHash (m2 ++ suffix) l2
   <-> computeHash m1 l1 = computeHash m2 l2)
  /\ forall (pre : string) (c1 c2 : ascii) (lvl : LogLevel),
       c1 <> c2 ->
       computeHash (pre ++ String c1 suffix) lvl
       <> computeHash (pre ++ String c2 suffix) lvl.
Proof.
  split.
  - unfold computeHash. rewrite !fnv_message_app. split.
    + apply fnv_message_inj; apply fnv_message_range, level_seed_range.
    + by intros ->.
  - intros pre c1 c2 lvl Hne. unfold computeHash. rewrite !fnv_message_app.
    change (fnv_message ?h (String ?c suffix))
      with (fnv_message (fnv_round h (char_to_uint32 c)) suffix).
    intros H. apply Hne. apply fnv_message_inj in H; [|apply fnv_round_range..].
    apply fnv_round_inj_input in H;
      [|apply fnv_message_range, level_seed_range
       |apply char_to_uint32_range..].
    by apply char_to_uint32_inj.
Qed.

Lemma computeHash_suffix_cancel_witness :
  computeHash ("frame 1" ++ " dropped") ERROR
  <> computeHash ("frame 2" ++ " dropped") ERROR.
Proof.
  destruct (computeHash_suffix_cancel "" "" " dropped" ERROR ERROR)
    as [_ Hchar].
  apply (Hchar "frame " "1"%char "2"%char ERROR). discriminate.
Defined.

(** ** Invariants of runs *)

(** A property of the logger and its sinks that every elementary update
    keeps is kept by every call, hence by every run. The updates are the
    ones the member functions are made of; [allowed] restricts the calls of
    the run. *)
Section StepInvariant.
Variable P : BufferedLogger -> Sinks -> Prop.
Variable allowed : Op -> Prop.

Hypothesis P_dedupe : forall s out m w i,
  P s out -> P (set_dedupe s m w i) out.
Hypothesis P_deduplicated : forall s out,
  P s out -> P (set_stats s (stats_deduplicated (m_stats s))) out.
Hypothesis P_append : forall s out e,
  count e = 1 ->
  P s out ->
  P (set_stats (set_currentBuffer s (currentBuffer s ++ [e]))
       (stats_logged (m_stats s)
          (Z.of_nat (length (currentBuffer s ++ [e]))))) out.
Hypothesis P_request : forall s out,
  P s out -> P (set_forceFlushRequested s true) out.
Hypothesis P_flush : forall s out env,
  P s out -> P (performFlush s out env).1 (performFlush s out env).2.
Hypothesis P_level : forall s out lvl,
  allowed (OpSetMinimumLevel lvl) ->
  P s out -> P (setMinimumLevel s lvl) out.
Hypothesis P_toggle : forall s out enable,
  allowed (OpEnableDeduplication enable) ->
  P s out -> P (enableDeduplication s enable) out.
Hypothesis P_callback : forall s out callable,
  allowed (OpSetFlushCallback callable) ->
  P s out -> P (setFlushCallback s callable) out.
Hypothesis P_shutdown : forall s out env,
  allowed (OpShutdown env) ->
  P s out -> P (shutdown s out env).1 (shutdown s out env).2.

(** First with what an append followed by its threshold check keeps. *)
Section Calls.
Hypothesis P_internalLog : forall s out env e,
  count e = 1 ->
  P s out -> P (internalLog s out env e).1 (internalLog s out env e).2.

Lemma step_preserves_calls op s out s' out' :
  allowed op ->
  step op (s, out) = Some (s', out') -> P s out -> P s' out'.
Proof.
  intros Hop Hstep HP.
  destruct op as [env lvl msg|env|env|env|lvl|enable|callable|env];
    simpl in Hstep.
  - unfold log in Hstep.
    destruct (level_ltb _ _); simplify_eq; [done|].
    destruct (enableDeduplication_flag _).
    + destruct (shouldDeduplicate s _ _) as [[dup s1]|] eqn:Hp;
        simplify_eq/=.
      destruct (shouldDeduplicate_frame _ _ _ _ _ Hp)
        as (m & w & i & ->).
      destruct dup; [simplify_eq; by apply P_deduplicated, P_dedupe|].
      injection Hstep as Hstep.
      match type of Hstep with
      | internalLog ?t _ _ ?e = _ =>
          pose proof (P_internalLog t out env e eq_refl
                        (P_dedupe _ _ m w i HP)) as Hi
      end.
      by rewrite Hstep in Hi.
    + injection Hstep as Hstep.
      match type of Hstep with
      | internalLog _ _ _ ?e = _ =>
          pose proof (P_internalLog s out env e eq_refl HP) as Hi
      end.
      by rewrite Hstep in Hi.
  - unfold flush in Hstep. destruct (asyncFlush _).
    + simplify_eq. by apply P_request.
    + injection Hstep as Hstep.
      pose proof (P_flush s out env HP) as Hf. by rewrite Hstep in Hf.
  - unfold forceFlush in Hstep. injection Hstep as Hstep.
    pose proof (P_flush s out env HP) as Hf. by rewrite Hstep in Hf.
  - unfold flushWorker_turn in Hstep. destruct (_ && _).
    + injection Hstep as Hstep.
      pose proof (P_flush s out env HP) as Hf. by rewrite Hstep in Hf.
    + by simplify_eq.
  - simplify_eq. by apply P_level.
  - simplify_eq. by apply P_toggle.
  - simplify_eq. by apply P_callback.
  - injection Hstep as Hstep.
    pose proof (P_shutdown s out env Hop HP) as Hs.
    by rewrite Hstep in Hs.
Qed.

Lemma run_preserves_calls ops s out s' out' :
  Forall allowed ops ->
  run ops (s, out) = Some (s', out') -> P s out -> P s' out'.
Proof.
  intros Hops. revert s out.
  induction Hops as [|op rest Hop Hrest IH]; intros s out Hrun HP.
  - simpl in Hrun. by simplify_eq.
  - cbn [run] in Hrun.
    destruct (step op (s, out)) as [[s1 out1]|] eqn:Hstep;
      simpl in Hrun; [|done].
    eapply IH; [exact Hrun|]. by eapply step_preserves_calls.
Qed.
End Calls.

(** Then from the elementary updates alone. *)
Lemma internalLog_preserves s out env e :
  count e = 1 ->
  P s out -> P (internalLog s out env e).1 (internalLog s out env e).2.
Proof.
  intros He HP. unfold internalLog.
  set (s2 := set_stats _ _).
  assert (H2 : P s2 out).
  { subst s2. pose proof (P_append s out e He HP) as Ha.
    destruct s as [c p q u m w i th sd ff fs cb st].
    unfold currentBuffer in *. simpl in *. by destruct u. }
  destruct (_ || _); [|done].
  destruct (asyncFlush _); [by apply P_request|by apply P_flush].
Qed.

Lemma step_preserves op s out s' out' :
  allowed op ->
  step op (s, out) = Some (s', out') -> P s out -> P s' out'.
Proof. apply step_preserves_calls, internalLog_preserves. Qed.

Lemma run_preserves ops s out s' out' :
  Forall allowed ops ->
  run ops (s, out) = Some (s', out') -> P s out -> P s' out'.
Proof. apply run_preserves_calls, internalLog_preserves. Qed.
End StepInvariant.

Lemma performFlush_lifecycle (s : BufferedLogger) (out : Sinks) (env : Env) :
  m_shutdown (performFlush s out env).1 = m_shutdown s
  /\ m_fileStream (performFlush s out env).1 = m_fileStream s
  /\ m_flushThread (performFlush s out env).1 = m_flushThread s
  /\ m_flushCallback (performFlush s out env).1 = m_flushCallback s.
Proof. unfold performFlush. destruct (currentBuffer s); done. Qed.

Lemma shutdown_config (s : BufferedLogger) (out : Sinks) (env : Env) :
  m_config (shutdown s out env).1 = m_config s.
Proof.
  unfold shutdown, forceFlush. destruct (m_shutdown s); [done|].
  pose proof (performFlush_config
                (set_lifecycle s false true (m_fileStream s)) out env) as Hc.
  destruct (performFlush _ out env) as [s2 out2]. done.
Qed.

Lemma Forall_any_op (ops : list Op) : Forall any_op ops.
Proof. by apply Forall_forall. Qed.

Lemma static_config_refl (c : Config) : static_config c c.
Proof. by repeat split. Qed.

Lemma run_keeps_static_config
    (ops : list Op) (s s' : BufferedLogger) (out out' : Sinks) :
  run ops (s, out) = Some (s', out') ->
  static_config (m_config s) (m_config s').
Proof.
  intros Hrun.
  apply (run_preserves
           (fun t _ => static_config (m_config s) (m_config t)) any_op)
    with (ops := ops) (s := s) (out := out) (out' := out'); try done.
  - intros t o env H. by rewrite performFlush_config.
  - intros t o enable _ H. unfold enableDeduplication.
    destruct enable; done.
  - intros t o env _ H. by rewrite shutdown_config.
  - apply Forall_any_op.
Qed.

(** X3. Whatever calls are made, the configuration a logger was constructed
    with keeps its buffer size, memory ceiling, flush interval, ring size,
    time window, output file, console flag and flush mode: only the minimum
    level and the deduplication flag are ever written. *)
Theorem config_is_static
    (config : Config) (opens : bool) (ops : list Op)
    (s : BufferedLogger) (out : Sinks) :
  run ops (construct config opens) = Some (s, out) ->
  static_config config (m_config s).
Proof.
  intros Hrun.
  destruct (construct config opens) as [s0 out0] eqn:Hc.
  pose proof (run_keeps_static_config _ _ _ _ _ Hrun) as Hst.
  by injection Hc as <- _.
Qed.

Lemma config_is_static_witness : static_config sync_Config (m_config dup_final.1).
Proof.
  apply (config_is_static sync_Config true
           (dup_ops ++ [OpShutdown (env_at 3000000)]) dup_final.1 dup_final.2).
  vm_compute. reflexivity.
Defined.

(** ** Shutdown and the file stream *)

Lemma shutdown_sets_flag (s : BufferedLogger) (out : Sinks) (env : Env) :
  m_shutdown (shutdown s out env).1 = true
  /\ m_fileStream (shutdown s out env).1 = m_shutdown s && m_fileStream s
  /\ m_flushThread (shutdown s out env).1 = m_shutdown s && m_flushThread s.
Proof.
  unfold shutdown, forceFlush. destruct (m_shutdown s) eqn:Hsd; [done|].
  destruct (performFlush_lifecycle
              (set_lifecycle s false true (m_fileStream s)) out env)
    as (Hd & _ & Ht & _).
  destruct (performFlush _ out env) as [s2 out2]. simpl in *. done.
Qed.

(** X4. [shutdown] is idempotent: a second call returns at once, whatever
    the clock shows, and so does a turn of the drainer thread. After the
    first call the flag is set, the file stream is closed and the drainer
    thread is gone. *)
Theorem shutdown_idempotent
    (s : BufferedLogger) (out : Sinks) (env env' : Env) :
  shutdown (shutdown s out env).1 (shutdown s out env).2 env'
  = shutdown s out env
  /\ flushWorker_turn (shutdown s out env).1 (shutdown s out env).2 env'
     = shutdown s out env
  /\ m_shutdown (shutdown s out env).1 = true
  /\ m_fileStream (shutdown s out env).1 = m_shutdown s && m_fileStream s
  /\ m_flushThread (shutdown s out env).1 = m_shutdown s && m_flushThread s.
Proof.
  destruct (shutdown_sets_flag s out env) as (Hd & Hf & Ht).
  split; [|split; [|done]].
  - unfold shutdown at 1. rewrite Hd. by destruct (shutdown s out env).
  - unfold flushWorker_turn. rewrite Hd, andb_false_r.
    by destruct (shutdown s out env).
Qed.

(** In every state reached from the constructor, a logger that has been
    shut down has its file stream closed. *)
Lemma shut_down_is_closed
    (config : Config) (opens : bool) (ops : list Op)
    (s : BufferedLogger) (out : Sinks) :
  run ops (construct config opens) = Some (s, out) ->
  m_shutdown s = true -> m_fileStream s = false.
Proof.
  intros Hrun.
  apply (run_preserves
           (fun s _ => m_shutdown s = true -> m_fileStream s = false) any_op)
    with (ops := ops) (s := (construct config opens).1)
         (out := (construct config opens).2) (out' := out);
    try done.
  - intros t o env H.
    by destruct (performFlush_lifecycle t o env) as (-> & -> & _).
  - intros t o enable _ H. unfold enableDeduplication. by destruct enable.
  - intros t o env _ H _.
    destruct (shutdown_sets_flag t o env) as (_ & -> & _).
    destruct (m_shutdown t); [by apply H|done].
  - apply Forall_any_op.
Qed.

(** A closed file stream stays closed and receives nothing. *)
Lemma closed_stream_receives_nothing
    (ops : list Op) (s s' : BufferedLogger) (out out' : Sinks) :
  run ops (s, out) = Some (s', out') ->
  m_fileStream s = false ->
  m_fileStream s' = false /\ file_lines out' = file_lines out.
Proof.
  intros Hrun Hclosed.
  apply (run_preserves
           (fun t o => m_fileStream t = false
                       /\ file_lines o = file_lines out) any_op)
    with (ops := ops) (s := s) (out := out); try done.
  - intros t o env [Hc Hl]. unfold performFlush.
    destruct (currentBuffer t); [done|]. simpl.
    destruct t as [c p q u m w i th sd ff fs cb st]. simpl in *. subst fs.
    done.
  - intros t o enable _ H. unfold enableDeduplication. by destruct enable.
  - intros t o env _ [Hc Hl]. unfold shutdown, forceFlush.
    destruct (m_shutdown t); [done|]. unfold performFlush.
    destruct t as [c p q u m w i th sd ff fs cb st]. simpl in *. subst fs.
    unfold currentBuffer. simpl. destruct u; simpl.
    + destruct q; done.
    + destruct p; done.
  - apply Forall_any_op.
Qed.

(** X5. Once [shutdown] has returned, the content of the log file is final:
    whatever calls follow (submissions, flushes, another shutdown), no line
    is added to it. *)
Theorem file_final_after_shutdown
    (config : Config) (opens : bool) (before after : list Op) (env : Env)
    (s1 s2 : BufferedLogger) (out1 out2 : Sinks) :
  run before (construct config opens) = Some (s1, out1) ->
  run after (shutdown s1 out1 env) = Some (s2, out2) ->
  file_lines out2 = file_lines (shutdown s1 out1 env).2
  /\ m_fileStream s2 = false.
Proof.
  intros Hbefore Hafter.
  pose proof (shut_down_is_closed _ _ _ _ _ Hbefore) as Hinv.
  destruct (shutdown_sets_flag s1 out1 env) as (_ & Hf & _).
  assert (Hclosed : m_fileStream (shutdown s1 out1 env).1 = false).
  { rewrite Hf. destruct (m_shutdown s1); [by apply Hinv|done]. }
  destruct (shutdown s1 out1 env) as [s out] eqn:Hs. simpl in *.
  destruct (closed_stream_receives_nothing _ _ _ _ _ Hafter Hclosed).
  done.
Qed.

(** X6. Nothing is written to [std::cerr] after the constructor, and a
    logger whose file stream is not open after construction (no file name,
    or the file could not be opened) never writes a file line. *)
Theorem unopened_file_stays_empty
    (config : Config) (opens : bool) (ops : list Op)
    (s : BufferedLogger) (out : Sinks) :
  run ops (construct config opens) = Some (s, out) ->
  cerr_lines out = cerr_lines (construct config opens).2
  /\ (negb (String.eqb (outputFile config) EmptyString) && opens = false ->
      file_lines out = []).
Proof.
  intros Hrun. split.
  - apply (run_preserves
             (fun _ o => cerr_lines o = cerr_lines (construct config opens).2)
             any_op)
      with (ops := ops) (s := (construct config opens).1)
           (out := (construct config opens).2) (s' := s); try done.
    + intros t o env H. unfold performFlush.
      destruct (currentBuffer t); done.
    + intros t o env _ H. unfold shutdown, forceFlush.
      destruct (m_shutdown t); [done|]. unfold performFlush.
      destruct (currentBuffer _); done.
    + apply Forall_any_op.
  - intros Hno.
    assert (Hclosed : m_fileStream (construct config opens).1 = false)
      by done.
    destruct (construct config opens) as [s0 out0] eqn:Hc.
    destruct (closed_stream_receives_nothing _ _ _ _ _ Hrun Hclosed)
      as [_ ->].
    by injection Hc as _ <-.
Qed.

Lemma file_final_after_shutdown_witness :
  file_lines late_final.2
  = file_lines (shutdown dup_before.1 dup_before.2 (env_at 3000000)).2
  /\ m_fileStream late_final.1 = false.
Proof.
  apply (file_final_after_shutdown sync_Config true dup_ops late_ops
           (env_at 3000000) dup_before.1 late_final.1
           dup_before.2 late_final.2).
  - vm_compute. reflexivity.
  - vm_compute. reflexivity.
Defined.

Lemma unopened_file_stays_empty_witness :
  cerr_lines nofile_final.2 = [] /\ file_lines nofile_final.2 = [].
Proof.
  destruct (unopened_file_stays_empty nofile_Config true nofile_ops
              nofile_final.1 nofile_final.2) as [Hcerr Hfile].
  - vm_compute. reflexivity.
  - split; [exact Hcerr|]. apply Hfile. reflexivity.
Defined.

(** ** The console and the callback *)

(** X7. Lines are written to the console only by a logger configured with
    console output, and batches are handed over only after a callback has
    been set: with console output off the console stays empty in every run,
    and in a run without [setFlushCallback] of a callable no batch is
    delivered. *)
Theorem sinks_are_gated
    (config : Config) (opens : bool) (ops : list Op)
    (s : BufferedLogger) (out : Sinks) :
  run ops (construct config opens) = Some (s, out) ->
  (consoleOutput config = false -> console_lines out = [])
  /\ (Forall (fun op => sets_callback op = false) ops ->
      callback_batches out = []).
Proof.
  intros Hrun. split.
  - intros Hoff.
    apply (run_preserves
             (fun t o => consoleOutput (m_config t) = false
                         /\ console_lines o = []) any_op)
      with (ops := ops) (s := (construct config opens).1)
           (out := (construct config opens).2) (s' := s); try done.
    + intros t o env [Hc Hl]. unfold performFlush.
      destruct (currentBuffer t); [done|]. simpl. by rewrite Hc.
    + intros t o enable _ H. unfold enableDeduplication. by destruct enable.
    + intros t o env _ [Hc Hl]. unfold shutdown, forceFlush.
      destruct (m_shutdown t); [done|]. unfold performFlush.
      destruct (currentBuffer _); [done|]. simpl. by rewrite Hc.
    + apply Forall_any_op.
  - intros Hops.
    apply (run_preserves
             (fun t o => m_flushCallback t = false
                         /\ callback_batches o = [])
             (fun op => sets_callback op = false))
      with (ops := ops) (s := (construct config opens).1)
           (out := (construct config opens).2) (s' := s); try done.
    + intros t o env [Hc Hl]. unfold performFlush.
      destruct (currentBuffer t); [done|]. simpl. by rewrite Hc.
    + intros t o enable _ H. unfold enableDeduplication. by destruct enable.
    + intros t o callable Hcall H. simpl in Hcall.
      destruct callable; [discriminate Hcall|]. by destruct H.
    + intros t o env _ [Hc Hl]. unfold shutdown, forceFlush.
      destruct (m_shutdown t); [done|]. unfold performFlush.
      destruct (currentBuffer _); [done|]. simpl. by rewrite Hc.
Qed.

Lemma sinks_are_gated_witness :
  console_lines dup_final.2 = [] /\ callback_batches dup_final.2 = [].
Proof.
  destruct (sinks_are_gated sync_Config true
              (dup_ops ++ [OpShutdown (env_at 3000000)])
              dup_final.1 dup_final.2) as [Hcon Hcb].
  - vm_compute. reflexivity.
  - split; [by apply Hcon|]. apply Hcb. repeat constructor.
Defined.

(** ** From submission to the file *)

Lemma performFlush_stream (s : BufferedLogger) (out : Sinks) (env : Env)
    (hist : list LogEntry) :
  stream_inv s out hist ->
  stream_inv (performFlush s out env).1 (performFlush s out env).2 hist.
Proof.
  intros Hinv. unfold performFlush.
  destruct (currentBuffer s) as [|e batch] eqn:Hcur; [exact Hinv|].
  destruct Hinv
    as (Hfile & Hother & Hcon & Hcount & delivered & Hhist & Hlines).
  destruct s as [c p q u m w i th sd ff fs cb st].
  unfold stream_inv, currentBuffer, otherBuffer, emit_batch in *.
  simpl in *. subst fs.
  assert (Hren : Forall2 renders (formatLogEntry env <$> e :: batch)
                   (e :: batch)).
  { apply Forall2_fmap_l, Forall_Forall2_diag, Forall_forall.
    intros x _. by exists env. }
  split; [done|].
  split; [destruct u; simpl; done|].
  split.
  { intros Hc. rewrite Hc. simpl. by rewrite Hcon. }
  split.
  { change (formatLogEntry env e :: list_fmap _ _ (formatLogEntry env) batch)
      with (formatLogEntry env <$> e :: batch).
    rewrite length_app, length_fmap, Hcount, Nat2Z.inj_add.
    by rewrite wrap64_add_l. }
  exists (delivered ++ e :: batch). split.
  - destruct u; simpl in *; subst; rewrite ?app_nil_r; done.
  - by apply Forall2_app.
Qed.

Lemma internalLog_stream (s : BufferedLogger) (out : Sinks) (env : Env)
    (e : LogEntry) (hist : list LogEntry) :
  stream_inv s out hist ->
  stream_inv (internalLog s out env e).1 (internalLog s out env e).2
    (hist ++ [e]).
Proof.
  intros Hinv. unfold internalLog.
  set (s2 := set_stats _ _).
  assert (H2 : stream_inv s2 out (hist ++ [e])).
  { destruct Hinv
      as (Hfile & Hother & Hcon & Hcount & delivered & Hhist & Hl).
    subst s2. destruct s as [c p q u m w i th sd ff fs cb st].
    unfold stream_inv, currentBuffer, otherBuffer in *. simpl in *.
    split; [done|].
    split; [destruct u; done|]. split; [done|]. split; [done|].
    exists delivered. split; [|done].
    rewrite Hhist. destruct u; simpl; by rewrite app_assoc. }
  destruct (_ || _); [|done].
  destruct (asyncFlush _); [done|]. by apply performFlush_stream.
Qed.

Lemma step_stream (op : Op) (s s' : BufferedLogger) (out out' : Sinks)
    (hist : list LogEntry) :
  is_shutdown op = false ->
  step op (s, out) = Some (s', out') ->
  stream_inv s out hist ->
  stream_inv s' out' (hist ++ admitted_by op s).
Proof.
  intros Hop Hstep Hinv.
  destruct op as [env lvl msg|env|env|env|lvl|enable|callable|env];
    simpl in Hstep; try discriminate Hop; simpl; rewrite ?app_nil_r.
  - unfold log in Hstep. unfold admitted_record.
    destruct (level_ltb _ _); simplify_eq; [by rewrite app_nil_r|].
    destruct (enableDeduplication_flag _).
    + destruct (shouldDeduplicate s _ _) as [[dup s1]|] eqn:Hp;
        simplify_eq/=.
      destruct (shouldDeduplicate_frame _ _ _ _ _ Hp) as (m & w & i & ->).
      destruct dup; injection Hstep as Hstep.
      * rewrite app_nil_r. by simplify_eq.
      * pose proof (internalLog_stream (set_dedupe s m w i) out env
                      (new_LogEntry (now_entry env) (this_thread env) lvl msg
                         (computeHash msg lvl)) hist Hinv) as Hi.
        by rewrite Hstep in Hi.
    + injection Hstep as Hstep.
      pose proof (internalLog_stream s out env
                    (new_LogEntry (now_entry env) (this_thread env) lvl msg 0)
                    hist Hinv) as Hi.
      by rewrite Hstep in Hi.
  - unfold flush in Hstep. destruct (asyncFlush _).
    + by simplify_eq.
    + injection Hstep as Hstep.
      pose proof (performFlush_stream s out env hist Hinv) as Hf.
      by rewrite Hstep in Hf.
  - unfold forceFlush in Hstep. injection Hstep as Hstep.
    pose proof (performFlush_stream s out env hist Hinv) as Hf.
    by rewrite Hstep in Hf.
  - unfold flushWorker_turn in Hstep. destruct (_ && _).
    + injection Hstep as Hstep.
      pose proof (performFlush_stream s out env hist Hinv) as Hf.
      by rewrite Hstep in Hf.
    + by simplify_eq.
  - by simplify_eq.
  - simplify_eq. unfold enableDeduplication. by destruct enable.
  - by simplify_eq.
Qed.

Lemma run_stream (ops : list Op) (s s' : BufferedLogger) (out out' : Sinks)
    (hist : list LogEntry) :
  Forall (fun op => is_shutdown op = false) ops ->
  run ops (s, out) = Some (s', out') ->
  stream_inv s out hist ->
  stream_inv s' out' (hist ++ admitted ops (s, out)).
Proof.
  intros Hops. revert s out hist.
  induction Hops as [|op rest Hop Hrest IH]; intros s out hist Hrun Hinv.
  - simpl in *. simplify_eq. by rewrite app_nil_r.
  - cbn [run] in Hrun. cbn [admitted fst].
    destruct (step op (s, out)) as [[s1 out1]|] eqn:Hstep;
      simpl in Hrun; [|done].
    rewrite app_assoc. apply IH; [done|]. by eapply step_stream.
Qed.

Lemma run_keeps_shutdown_flag
    (ops : list Op) (s s' : BufferedLogger) (out out' : Sinks) :
  Forall (fun op => is_shutdown op = false) ops ->
  run ops (s, out) = Some (s', out') ->
  m_shutdown s' = m_shutdown s.
Proof.
  intros Hops Hrun.
  apply (run_preserves (fun t _ => m_shutdown t = m_shutdown s)
           (fun op => is_shutdown op = false))
    with (ops := ops) (s := s) (out := out) (out' := out'); try done.
  - intros t o env H.
    by destruct (performFlush_lifecycle t o env) as (-> & _).
  - intros t o enable _ H. unfold enableDeduplication. by destruct enable.
Qed.

(** X8. With asynchronous flushing off and the file open, a run of calls
    made one after another and followed by [shutdown] leaves in the file
    exactly one formatted entry for each record that passed the level filter
    and the dedup probe, in the order of the submissions: nothing is lost,
    repeated or reordered. (An entry is the text the formatter returns,
    written with a line end; a message is written as it is.) With console
    output on, the console holds the same entries; [totalFlushed] is their
    number (in [size_t]). *)
Theorem file_holds_admitted_records
    (config : Config) (ops : list Op) (env : Env)
    (s : BufferedLogger) (out : Sinks) :
  asyncFlush config = false ->
  outputFile config <> EmptyString ->
  Forall (fun op => is_shutdown op = false) ops ->
  run (ops ++ [OpShutdown env]) (construct config true) = Some (s, out) ->
  Forall2 renders (file_lines out) (admitted ops (construct config true))
  /\ (consoleOutput config = true -> console_lines out = file_lines out)
  /\ totalFlushed (m_stats s) = wrap64 (Z.of_nat (length (file_lines out))).
Proof.
  intros _ Hnamed Hops Hrun. rewrite run_app in Hrun.
  assert (Hinv0 : stream_inv (construct config true).1
                    (construct config true).2 []).
  { unfold stream_inv, construct. simpl.
    destruct (String.eqb_spec (outputFile config) EmptyString); [done|].
    simpl. split; [done|]. split; [done|].
    split; [done|]. split; [done|]. exists []. split; [done|constructor]. }
  destruct (construct config true) as [s0 out0] eqn:Hc.
  destruct (run ops (s0, out0)) as [[s1 out1]|] eqn:Hr1; [|done].
  pose proof (run_stream _ _ _ _ _ _ Hops Hr1 Hinv0) as Hinv1.
  simpl in Hinv1, Hrun.
  pose proof (run_keeps_static_config _ _ _ _ _ Hr1)
    as (_ & _ & _ & _ & _ & _ & Hconsole & _).
  assert (Hdown : stream_inv (set_lifecycle s1 false true (m_fileStream s1))
                    out1 (admitted ops (s0, out0))) by done.
  assert (Hsd : m_shutdown s1 = false).
  { rewrite (run_keeps_shutdown_flag _ _ _ _ _ Hops Hr1).
    by injection Hc as <- _. }
  unfold shutdown, forceFlush in Hrun. rewrite Hsd in Hrun.
  pose proof (performFlush_stream _ _ env _ Hdown) as Hafter.
  pose proof (performFlush_config
                (set_lifecycle s1 false true (m_fileStream s1)) out1 env)
    as Hcfg.
  destruct (performFlush _ out1 env) as [s2 out2] eqn:Hp. simplify_eq.
  destruct Hdown as (_ & Hother0 & _).
  destruct (performFlush_ledger _ _ _ _ _ Hp Hother0) as (Hcur & _).
  destruct Hafter
    as (_ & _ & Hcon & Hcount & delivered & Hhist & Hlines).
  simpl in *. rewrite Hcur, app_nil_r in Hhist. subst delivered.
  split; [done|]. split; [|done].
  intros Hon. apply Hcon. rewrite Hcfg. simpl. rewrite Hconsole.
  injection Hc as <- _. done.
Qed.

Lemma file_holds_admitted_records_witness :
  Forall2 renders (file_lines dup_final.2)
    (admitted dup_ops (construct sync_Config true))
  /\ (consoleOutput sync_Config = true ->
      console_lines dup_final.2 = file_lines dup_final.2)
  /\ totalFlushed (m_stats dup_final.1)
     = wrap64 (Z.of_nat (length (file_lines dup_final.2))).
Proof.
  apply (file_holds_admitted_records sync_Config dup_ops (env_at 3000000)
           dup_final.1 dup_final.2).
  - reflexivity.
  - discriminate.
  - repeat constructor.
  - vm_compute. reflexivity.
Defined.

(** ** The two buffers *)

(** X9. Between calls the buffer that is not active is empty, and the gauge
    [currentBufferSize] is the length of the active buffer. *)
Theorem gauge_is_buffer_length
    (config : Config) (opens : bool) (ops : list Op)
    (s : BufferedLogger) (out : Sinks) :
  run ops (construct config opens) = Some (s, out) ->
  otherBuffer s = []
  /\ currentBufferSize (m_stats s) = Z.of_nat (length (currentBuffer s)).
Proof.
  intros Hrun.
  apply (run_preserves
           (fun t _ => otherBuffer t = []
                       /\ currentBufferSize (m_stats t)
                          = Z.of_nat (length (currentBuffer t))) any_op)
    with (ops := ops) (s := (construct config opens).1)
         (out := (construct config opens).2) (out' := out); try done.
  - intros t o e _ [Ho Hg]. destruct t as [c p q u m w i th sd ff fs cb st].
    unfold currentBuffer, otherBuffer in *. simpl in *. by destruct u.
  - intros t o env [Ho Hg]. unfold performFlush.
    destruct (currentBuffer t) eqn:Hc; simpl; [by rewrite Hc|].
    destruct t as [c p q u m w i th sd ff fs cb st].
    unfold currentBuffer, otherBuffer in *. simpl in *.
    destruct u; simpl in *; subst; done.
  - intros t o enable _ H. unfold enableDeduplication. by destruct enable.
  - intros t o env _ [Ho Hg]. unfold shutdown, forceFlush.
    destruct (m_shutdown t); [done|]. unfold performFlush.
    destruct t as [c p q u m w i th sd ff fs cb st].
    unfold currentBuffer, otherBuffer in *. simpl in *.
    destruct u; simpl in *; subst.
    + destruct q; done.
    + destruct p; done.
  - apply Forall_any_op.
Qed.

Lemma gauge_is_buffer_length_witness :
  otherBuffer five_final.1 = []
  /\ currentBufferSize (m_stats five_final.1)
     = Z.of_nat (length (currentBuffer five_final.1)).
Proof.
  apply (gauge_is_buffer_length small_Config true five_ops
           five_final.1 five_final.2).
  vm_compute. reflexivity.
Defined.

(** In synchronous mode an append leaves the buffer below the thresholds:
    when one is reached the buffer is drained before the call returns. *)
Lemma internalLog_below_thresholds (s : BufferedLogger) (out : Sinks)
    (env : Env) (e : LogEntry) :
  asyncFlush (m_config s) = false ->
  otherBuffer s = [] ->
  asyncFlush (m_config (internalLog s out env e).1) = false
  /\ otherBuffer (internalLog s out env e).1 = []
  /\ below_thresholds (internalLog s out env e).1.
Proof.
  intros Hsync Hother. unfold internalLog.
  set (s2 := set_stats _ _).
  assert (Hs2 : asyncFlush (m_config s2) = false /\ otherBuffer s2 = []).
  { subst s2. destruct s as [c p q u m w i th sd ff fs cb st].
    unfold otherBuffer in *. simpl in *. by destruct u. }
  destruct Hs2 as [Hsync2 Hother2].
  destruct (_ || _) eqn:Hflush.
  - rewrite Hsync2.
    destruct (performFlush s2 out env) as [s3 out3] eqn:Hp.
    destruct (performFlush_ledger _ _ _ _ _ Hp Hother2)
      as (Hc3 & Ho3 & _ & _ & _ & Hcfg & _).
    simpl. rewrite Hcfg. split; [done|]. split; [done|]. by left.
  - apply orb_false_elim in Hflush as [Hroom Hlight].
    apply Z.leb_gt in Hroom, Hlight.
    split; [done|]. split; [done|]. right. split; [|done].
    subst s2. destruct s as [c p q u m w i th sd ff fs cb st].
    unfold currentBuffer in *. simpl in *. by destruct u.
Qed.

Lemma below_thresholds_frame (s s' : BufferedLogger) :
  currentBuffer s' = currentBuffer s ->
  bufferSize (m_config s') = bufferSize (m_config s) ->
  maxMemoryBytes (m_config s') = maxMemoryBytes (m_config s) ->
  below_thresholds s -> below_thresholds s'.
Proof.
  unfold below_thresholds, estimateMemoryUsage.
  intros -> -> ->. done.
Qed.

(** X10. A logger with synchronous flushing never returns from a call with
    an active buffer that has reached a threshold: between calls the buffer
    is empty, or holds fewer than [bufferSize] records whose estimated size
    is under [maxMemoryBytes]. *)
Theorem sync_buffer_below_thresholds
    (config : Config) (opens : bool) (ops : list Op)
    (s : BufferedLogger) (out : Sinks) :
  asyncFlush config = false ->
  run ops (construct config opens) = Some (s, out) ->
  currentBuffer s = []
  \/ (Z.of_nat (length (currentBuffer s)) < bufferSize config
      /\ estimateMemoryUsage s < maxMemoryBytes config).
Proof.
  intros Hsync Hrun.
  destruct (construct config opens) as [s0 out0] eqn:Hc.
  destruct (run_keeps_static_config _ _ _ _ _ Hrun)
    as (Hsize & Hmem & _).
  assert (Hcfg0 : m_config s0 = config) by (by injection Hc as <- _).
  rewrite Hcfg0 in Hsize, Hmem. rewrite <- Hsize, <- Hmem.
  assert (Hinv : asyncFlush (m_config s) = false /\ otherBuffer s = []
                 /\ below_thresholds s); [|by destruct Hinv as (_ & _ & ?)].
  apply (run_preserves_calls
           (fun t _ => asyncFlush (m_config t) = false /\ otherBuffer t = []
                       /\ below_thresholds t) any_op)
    with (ops := ops) (s := s0) (out := out0) (out' := out).
  - intros t o m w i (Ha & Ho & Hb). split; [done|]. split; [done|].
    by apply (below_thresholds_frame t).
  - intros t o (Ha & Ho & Hb). split; [done|]. split; [done|].
    by apply (below_thresholds_frame t).
  - intros t o (Ha & Ho & Hb). split; [done|]. split; [done|].
    by apply (below_thresholds_frame t).
  - intros t o env (Ha & Ho & Hb).
    destruct (performFlush t o env) as [t' o'] eqn:Hp.
    destruct (performFlush_ledger _ _ _ _ _ Hp Ho)
      as (Hc' & Ho' & _ & _ & _ & Hcfg' & _).
    simpl. rewrite Hcfg'. split; [done|]. split; [done|]. by left.
  - intros t o lvl _ (Ha & Ho & Hb). split; [done|]. split; [done|].
    by apply (below_thresholds_frame t).
  - intros t o enable _ (Ha & Ho & Hb). unfold enableDeduplication.
    destruct enable; (split; [done|]; split; [done|];
                      by apply (below_thresholds_frame t)).
  - intros t o callable _ (Ha & Ho & Hb). split; [done|]. split; [done|].
    by apply (below_thresholds_frame t).
  - intros t o env _ (Ha & Ho & Hb). unfold shutdown, forceFlush.
    destruct (m_shutdown t); [done|].
    destruct (performFlush _ o env) as [t' o'] eqn:Hp.
    assert (Ho1 : otherBuffer (set_lifecycle t false true (m_fileStream t))
                  = []) by done.
    destruct (performFlush_ledger _ _ _ _ _ Hp Ho1)
      as (Hc' & Ho' & _ & _ & _ & Hcfg' & _).
    simpl. split; [by rewrite Hcfg'|]. split; [done|]. by left.
  - intros t o env e _ (Ha & Ho & Hb).
    by apply internalLog_below_thresholds.
  - apply Forall_any_op.
  - exact Hrun.
  - injection Hc as <- <-. rewrite Hsync. split; [done|]. split; [done|].
    by left.
Qed.

Lemma sync_buffer_below_thresholds_witness :
  currentBuffer five_final.1 = []
  \/ (Z.of_nat (length (currentBuffer five_final.1)) < bufferSize small_Config
      /\ estimateMemoryUsage five_final.1 < maxMemoryBytes small_Config).
Proof.
  apply (sync_buffer_below_thresholds small_Config true five_ops
           five_final.1 five_final.2).
  - reflexivity.
  - vm_compute. reflexivity.
Defined.

(** ** Asynchronous mode *)





(** ** Drains *)




(** ** Dedup cache: series of probes *)

Lemma shouldDeduplicate_hit (s : BufferedLogger) (h now : Z)
    (info : DedupeInfo) :
  m_dedupeMap s !! h = Some info ->
  elapsed_ms now (lastSeen info) < deduplicationTimeWindow (m_config s) ->
  shouldDeduplicate s h now
  = Some (true,
          set_dedupe s
            (<[h := mkDedupeInfo now (wrap64 (dcount info + 1))]>
               (m_dedupeMap s))
            (m_dedupeWindow s) (m_dedupeWindowIndex s)).
Proof.
  intros Hm Hlt. unfold shouldDeduplicate, dedupe_hit. rewrite Hm.
  by destruct (Z.ltb_spec (elapsed_ms now (lastSeen info))
                 (deduplicationTimeWindow (m_config s))); [|lia].
Qed.

Lemma shouldDeduplicate_suppressed (s s' : BufferedLogger) (h now : Z) :
  shouldDeduplicate s h now = Some (true, s') ->
  exists info,
    m_dedupeMap s !! h = Some info
    /\ elapsed_ms now (lastSeen info) < deduplicationTimeWindow (m_config s).
Proof.
  unfold shouldDeduplicate, dedupe_hit. intros Hp.
  destruct (m_dedupeMap s !! h) as [info|].
  - destruct (Z.ltb_spec (elapsed_ms now (lastSeen info))
                (deduplicationTimeWindow (m_config s))); [by eauto|].
    destruct (dedupe_track s h now); simplify_eq/=.
  - destruct (dedupe_track s h now); simplify_eq/=.
Qed.

(** Whatever the answer of a probe, with a positive window it leaves the
    probed fingerprint in the map with [lastSeen = now]. *)
Lemma shouldDeduplicate_last_seen (s s' : BufferedLogger) (h now : Z)
    (b : bool) :
  0 < deduplicationTimeWindow (m_config s) ->
  shouldDeduplicate s h now = Some (b, s') ->
  m_config s' = m_config s
  /\ exists c, m_dedupeMap s' !! h = Some (mkDedupeInfo now c).
Proof.
  intros HW. unfold shouldDeduplicate, dedupe_track. intros Hp.
  destruct (dedupe_hit s h now) as [info|]; simplify_eq/=.
  - split; [done|]. eexists. apply lookup_insert_eq.
  - destruct (m_dedupeWindow s !! m_dedupeWindowIndex s) as [old|];
      simplify_eq/=.
    split; [done|]. exists 1. unfold evict_displaced.
    destruct (old =? 0); [apply lookup_insert_eq|].
    destruct (<[h:=_]> (m_dedupeMap s) !! old) as [info|] eqn:Hold;
      [|apply lookup_insert_eq].
    destruct (Z.leb_spec (deduplicationTimeWindow (m_config s))
                (elapsed_ms now (lastSeen info))); [|apply lookup_insert_eq].
    destruct (decide (h = old)) as [<-|Hne].
    + rewrite lookup_insert_eq in Hold. simplify_eq/=.
      rewrite elapsed_ms_same in *. lia.
    + rewrite lookup_delete_ne by done. apply lookup_insert_eq.
Qed.

(** X13. After a probe of a fingerprint at time [t] (whatever its answer,
    with a positive window), the next probe of that fingerprint is answered
    "suppress" exactly when it comes less than the window after [t]: a
    record is let through again once the window has passed. *)
Theorem second_probe_suppressed_iff
    (s s1 : BufferedLogger) (h t t' : Z) (b : bool) :
  0 < deduplicationTimeWindow (m_config s) ->
  shouldDeduplicate s h t = Some (b, s1) ->
  (exists s2, shouldDeduplicate s1 h t' = Some (true, s2))
  <-> elapsed_ms t' t < deduplicationTimeWindow (m_config s).
Proof.
  intros HW Hp.
  destruct (shouldDeduplicate_last_seen _ _ _ _ _ HW Hp) as (Hcfg & c & Hm).
  split.
  - intros [s2 H2].
    destruct (shouldDeduplicate_suppressed _ _ _ _ H2) as (info & Hi & Hlt).
    rewrite Hm in Hi. simplify_eq/=. by rewrite <- Hcfg.
  - intros Hlt. eexists. apply (shouldDeduplicate_hit s1 h t' _ Hm).
    simpl. by rewrite Hcfg.
Qed.

Lemma second_probe_suppressed_iff_witness :
  (exists s2, shouldDeduplicate seen_5_then_7 7 9000000000 = Some (true, s2))
  <-> elapsed_ms 9000000000 6000000000
      < deduplicationTimeWindow (m_config seen_5).
Proof.
  apply (second_probe_suppressed_iff seen_5 seen_5_then_7 7 6000000000
           9000000000 false).
  - vm_compute. reflexivity.
  - vm_compute. reflexivity.
Defined.

Lemma last_default_irrelevant (a : Z) (l : list Z) (d d' : Z) :
  List.last (a :: l) d = List.last (a :: l) d'.
Proof.
  revert a. induction l as [|b l IH]; intros a; [done|].
  change (List.last (b :: l) d = List.last (b :: l) d'). apply IH.
Qed.

Lemma probes_paced_in_range (times : list Z) :
  forall (s : BufferedLogger) (h t0 c : Z),
    c = wrap64 c ->
    m_dedupeMap s !! h = Some (mkDedupeInfo t0 c) ->
    paced (deduplicationTimeWindow (m_config s)) t0 times ->
    exists s',
      probes s h times = Some (replicate (length times) true, s')
      /\ m_dedupeMap s' !! h
         = Some (mkDedupeInfo (List.last times t0)
                   (wrap64 (c + Z.of_nat (length times))))
      /\ (forall k, k <> h -> m_dedupeMap s' !! k = m_dedupeMap s !! k)
      /\ m_dedupeWindow s' = m_dedupeWindow s
      /\ m_dedupeWindowIndex s' = m_dedupeWindowIndex s
      /\ m_primaryBuffer s' = m_primaryBuffer s
      /\ m_secondaryBuffer s' = m_secondaryBuffer s
      /\ m_stats s' = m_stats s.
Proof.
  induction times as [|t rest IH]; intros s h t0 c Hc Hm Hpaced.
  - exists s. simpl. rewrite Z.add_0_r, <- Hc. done.
  - destruct Hpaced as [Hlt Hrest]. cbn [probes].
    rewrite (shouldDeduplicate_hit s h t _ Hm Hlt). simpl.
    set (s1 := set_dedupe s _ _ _).
    destruct (IH s1 h t (wrap64 (c + 1))) as (s' & Hp & Hm' & Hk & Hrest');
      [by rewrite wrap64_idemp|apply lookup_insert_eq|exact Hrest|].
    exists s'. rewrite Hp. simpl. split; [done|]. split.
    { rewrite Hm'. f_equal. f_equal.
      - destruct rest as [|a r]; [done|]. apply last_default_irrelevant.
      - rewrite wrap64_add_l. f_equal. lia. }
    split; [|exact Hrest'].
    intros k Hne. rewrite (Hk k Hne). subst s1. simpl.
    by rewrite lookup_insert_ne.
Qed.

(** X14. Suppression refreshes the window: when a fingerprint is in the map
    and is probed again and again, each time less than the window after the
    time before, every probe of the series is answered "suppress", however
    long the series lasts. The entry ends with the time of the last probe
    and its count raised by the number of probes (in [size_t]); the other
    entries, the ring, the buffers and the counters are untouched. *)
Theorem paced_probes_all_suppressed
    (s : BufferedLogger) (h t0 c t : Z) (rest : list Z) :
  m_dedupeMap s !! h = Some (mkDedupeInfo t0 c) ->
  paced (deduplicationTimeWindow (m_config s)) t0 (t :: rest) ->
  exists s',
    probes s h (t :: rest) = Some (replicate (S (length rest)) true, s')
    /\ m_dedupeMap s' !! h
       = Some (mkDedupeInfo (List.last rest t)
                 (wrap64 (c + Z.of_nat (S (length rest)))))
    /\ (forall k, k <> h -> m_dedupeMap s' !! k = m_dedupeMap s !! k)
    /\ m_dedupeWindow s' = m_dedupeWindow s
    /\ m_dedupeWindowIndex s' = m_dedupeWindowIndex s
    /\ m_primaryBuffer s' = m_primaryBuffer s
    /\ m_secondaryBuffer s' = m_secondaryBuffer s
    /\ m_stats s' = m_stats s.
Proof.
  intros Hm [Hlt Hrest]. cbn [probes].
  rewrite (shouldDeduplicate_hit s h t _ Hm Hlt). simpl.
  set (s1 := set_dedupe s _ _ _).
  destruct (probes_paced_in_range rest s1 h t (wrap64 (c + 1)))
    as (s' & Hp & Hm' & Hk & Hrest');
    [by rewrite wrap64_idemp|apply lookup_insert_eq|exact Hrest|].
  exists s'. rewrite Hp. simpl. split; [done|]. split.
  { rewrite Hm'. f_equal. f_equal. rewrite wrap64_add_l. f_equal. lia. }
  split; [|exact Hrest'].
  intros k Hne. rewrite (Hk k Hne). subst s1. simpl.
  by rewrite lookup_insert_ne.
Qed.

Lemma paced_probes_all_suppressed_witness :
  exists s',
    probes seen_5 5 [4000000000; 8000000000; 12000000000]
    = Some ([true; true; true], s')
    /\ m_dedupeMap s' !! 5 = Some (mkDedupeInfo 12000000000 4).
Proof.
  destruct (paced_probes_all_suppressed seen_5 5 0 1 4000000000
              [8000000000; 12000000000]) as (s' & Hp & Hm & _).
  - reflexivity.
  - vm_compute. repeat split; reflexivity.
  - exists s'. split; [exact Hp|exact Hm].
Defined.

(** ** Duplicate submissions *)

Lemma performFlush_dedupe (s : BufferedLogger) (out : Sinks) (env : Env) :
  m_dedupeMap (performFlush s out env).1 = m_dedupeMap s.
Proof. unfold performFlush. destruct (currentBuffer s); done. Qed.

Lemma internalLog_dedupe (s : BufferedLogger) (out : Sinks) (env : Env)
    (e : LogEntry) :
  m_dedupeMap (internalLog s out env e).1 = m_dedupeMap s.
Proof.
  unfold internalLog. destruct (_ || _); [|done].
  destruct (asyncFlush _); [done|]. by rewrite performFlush_dedupe.
Qed.

(** A submission that passes the level filter of a deduplicating logger
    leaves its fingerprint in the map with the time of its probe. *)
Lemma log_last_seen (s s1 : BufferedLogger) (out out1 : Sinks) (env : Env)
    (lvl : LogLevel) (msg : string) :
  enableDeduplication_flag (m_config s) = true ->
  0 < deduplicationTimeWindow (m_config s) ->
  level_ltb lvl (minimumLevel (m_config s)) = false ->
  log s out env lvl msg = Some (s1, out1) ->
  m_config s1 = m_config s
  /\ exists c,
       m_dedupeMap s1 !! computeHash msg lvl
       = Some (mkDedupeInfo (now_probe env) c).
Proof.
  intros Hen HW Hlvl. unfold log. rewrite Hlvl, Hen. intros Hlog.
  destruct (shouldDeduplicate s _ _) as [[dup s0]|] eqn:Hp; simplify_eq/=.
  destruct (shouldDeduplicate_last_seen _ _ _ _ _ HW Hp) as (Hcfg & c & Hm).
  destruct dup; injection Hlog as Hlog.
  - simplify_eq. split; [done|]. by exists c.
  - match type of Hlog with
    | internalLog ?t ?o ?en ?e = _ =>
        pose proof (internalLog_dedupe t o en e) as Hd;
        pose proof (internalLog_config t o en e) as Hc
    end.
    rewrite Hlog in Hd, Hc. simpl in *. rewrite Hd, Hc.
    split; [done|]. by exists c.
Qed.

(** X15. With deduplication on and a positive window, a record submitted
    again (same level, same message) by the very next call on the logger,
    no other call in between, less than the window after the first
    submission, is suppressed: the second call appends nothing, writes
    nothing, and raises [totalDeduplicated] by one. *)
Theorem duplicate_submission_suppressed
    (s s1 : BufferedLogger) (out out1 : Sinks) (env env' : Env)
    (lvl : LogLevel) (msg : string) :
  enableDeduplication_flag (m_config s) = true ->
  0 < deduplicationTimeWindow (m_config s) ->
  level_ltb lvl (minimumLevel (m_config s)) = false ->
  log s out env lvl msg = Some (s1, out1) ->
  elapsed_ms (now_probe env') (now_probe env)
    < deduplicationTimeWindow (m_config s) ->
  exists s2,
    log s1 out1 env' lvl msg = Some (s2, out1)
    /\ m_primaryBuffer s2 = m_primaryBuffer s1
    /\ m_secondaryBuffer s2 = m_secondaryBuffer s1
    /\ totalLogged (m_stats s2) = totalLogged (m_stats s1)
    /\ totalFlushed (m_stats s2) = totalFlushed (m_stats s1)
    /\ totalDeduplicated (m_stats s2)
       = wrap64 (totalDeduplicated (m_stats s1) + 1).
Proof.
  intros Hen HW Hlvl Hlog Hlt.
  destruct (log_last_seen _ _ _ _ _ _ _ Hen HW Hlvl Hlog) as (Hcfg & c & Hm).
  unfold log. rewrite Hcfg, Hlvl, Hen.
  rewrite (shouldDeduplicate_hit s1 _ (now_probe env') _ Hm)
    by (simpl; by rewrite Hcfg).
  simpl. eexists. split; [done|]. done.
Qed.

Lemma duplicate_submission_suppressed_witness :
  exists s2,
    log dup_first.1 dup_first.2 (env_at 2000000) INFO "dup"
    = Some (s2, dup_first.2)
    /\ m_primaryBuffer s2 = m_primaryBuffer dup_first.1
    /\ m_secondaryBuffer s2 = m_secondaryBuffer dup_first.1
    /\ totalLogged (m_stats s2) = totalLogged (m_stats dup_first.1)
    /\ totalFlushed (m_stats s2) = totalFlushed (m_stats dup_first.1)
    /\ totalDeduplicated (m_stats s2)
       = wrap64 (totalDeduplicated (m_stats dup_first.1) + 1).
Proof.
  apply (duplicate_submission_suppressed (construct sync_Config true).1
           dup_first.1 (construct sync_Config true).2 dup_first.2
           (env_at 1000000) (env_at 2000000) INFO "dup").
  - reflexivity.
  - reflexivity.
  - reflexivity.
  - vm_compute. reflexivity.
  - vm_compute. reflexivity.
Defined.

(** ** The eviction ring: bounds *)

(** X16. A logger constructed with deduplication enabled and a ring of at
    least one slot never reads outside its ring: every sequence of calls
    runs to the end, the ring keeps the configured length and the cursor
    stays inside it. *)
Theorem ring_cursor_in_bounds
    (config : Config) (opens : bool) (ops : list Op) :
  enableDeduplication_flag config = true ->
  (0 < deduplicationWindowSize config)%nat ->
  exists (s : BufferedLogger) (out : Sinks),
    run ops (construct config opens) = Some (s, out)
    /\ length (m_dedupeWindow s) = deduplicationWindowSize config
    /\ (m_dedupeWindowIndex s < deduplicationWindowSize config)%nat.
Proof.
  intros Hen Hsize.
  assert (Hgen : forall s out,
            ring_ok s ->
            exists s' out',
              run ops (s, out) = Some (s', out') /\ ring_ok s'
              /\ length (m_dedupeWindow s') = length (m_dedupeWindow s)).
  { induction ops as [|op rest IH]; intros s out Hok; [by eauto|].
    cbn [run].
    destruct (step_defined op s out Hok) as (s1 & out1 & Hstep & Hok1).
    rewrite Hstep. simpl.
    destruct (IH s1 out1 Hok1) as (s' & out' & Hrun & Hok' & Hlen).
    exists s', out'. split; [done|]. split; [done|].
    rewrite Hlen. by eapply step_ring_length. }
  assert (Hlen0 : length (m_dedupeWindow (construct config opens).1)
                  = deduplicationWindowSize config).
  { rewrite construct_ring, Hen. apply length_replicate. }
  destruct (Hgen (construct config opens).1 (construct config opens).2)
    as (s & out & Hrun & Hok & Hlen).
  { unfold ring_ok. rewrite Hlen0. simpl. lia. }
  exists s, out. split; [by destruct (construct config opens)|].
  unfold ring_ok in Hok. rewrite Hlen, Hlen0 in *. done.
Qed.

Lemma ring_cursor_in_bounds_witness :
  exists (s : BufferedLogger) (out : Sinks),
    run (dup_ops ++ [OpShutdown (env_at 3000000)]) (construct sync_Config true)
    = Some (s, out)
    /\ length (m_dedupeWindow s) = deduplicationWindowSize sync_Config
    /\ (m_dedupeWindowIndex s < deduplicationWindowSize sync_Config)%nat.
Proof.
  apply (ring_cursor_in_bounds sync_Config true).
  - reflexivity.
  - vm_compute. lia.
Defined.

(** X17. Switching deduplication off empties the cache: the map is empty,
    every ring slot is 0, the cursor is 0 and the ring keeps its length.
    Switching it on again starts from that empty cache: the first probe of
    any fingerprint, at any time, is answered "pass" (for a ring of at least
    one slot). *)
Theorem enableDeduplication_off_then_on (s : BufferedLogger) :
  let off := enableDeduplication s false in
  let on := enableDeduplication off true in
  enableDeduplication_flag (m_config off) = false
  /\ enableDeduplication_flag (m_config on) = true
  /\ m_dedupeMap on = ∅
  /\ m_dedupeWindow on = replicate (length (m_dedupeWindow s)) 0
  /\ m_dedupeWindowIndex on = 0%nat
  /\ (m_dedupeWindow s <> [] ->
      forall h now, exists s', shouldDeduplicate on h now = Some (false, s')).
Proof.
  simpl. split; [done|]. split; [done|]. split; [done|].
  assert (Hzero : const 0 <$> m_dedupeWindow s
                  = replicate (length (m_dedupeWindow s)) 0).
  { induction (m_dedupeWindow s) as [|x l IH]; [done|].
    simpl. by rewrite <- IH. }
  split; [done|]. split; [done|].
  intros Hne h now.
  unfold shouldDeduplicate, dedupe_hit, dedupe_track. simpl.
  rewrite lookup_empty. simpl.
  destruct (m_dedupeWindow s) as [|x l]; [done|]. simpl. eauto.
Qed.

Lemma enableDeduplication_off_then_on_witness :
  exists s',
    shouldDeduplicate
      (enableDeduplication (enableDeduplication seen_5 false) true)
      5 1000000000
    = Some (false, s').
Proof.
  destruct (enableDeduplication_off_then_on seen_5)
    as (_ & _ & _ & _ & _ & Hpass).
  apply Hpass. discriminate.
Defined.

(** ** Flush requests *)

(** X18. A flush request made in asynchronous mode while the active buffer
    is empty stays pending: the turns of the drainer thread that follow
    write nothing and do not clear [m_forceFlushRequested]. *)
Theorem empty_flush_request_stays_pending
    (s : BufferedLogger) (out : Sinks) (env env' : Env) (turns : nat) :
  asyncFlush (m_config s) = true ->
  currentBuffer s = [] ->
  run (OpFlush env :: replicate turns (OpDrainer env')) (s, out)
  = Some (set_forceFlushRequested s true, out)
  /\ m_forceFlushRequested (set_forceFlushRequested s true) = true.
Proof.
  intros Ha Hempty. split; [|done].
  cbn [run step]. unfold flush. rewrite Ha. simpl.
  assert (Hcur : currentBuffer (set_forceFlushRequested s true) = [])
    by done.
  generalize dependent (set_forceFlushRequested s true). intros t Ht.
  induction turns as [|n IH]; [done|].
  cbn [replicate run step]. unfold flushWorker_turn.
  destruct (_ && _); simpl; [|exact IH].
  unfold performFlush. rewrite Ht. exact IH.
Qed.

Lemma empty_flush_request_stays_pending_witness :
  run (OpFlush (env_at 1000000) :: replicate 3 (OpDrainer (env_at 2000000)))
      (construct default_Config true)
  = Some (set_forceFlushRequested (construct default_Config true).1 true,
          (construct default_Config true).2)
  /\ m_forceFlushRequested
       (set_forceFlushRequested (construct default_Config true).1 true)
     = true.
Proof.
  apply (empty_flush_request_stays_pending (construct default_Config true).1
           (construct default_Config true).2).
  - reflexivity.
  - reflexivity.
Defined.

(** ** Formatted submission *)

Lemma substring_prefix (n : nat) (s : string) :
  (String.length (String.substring 0 n s) <= n)%nat
  /\ (exists rest, s = (String.substring 0 n s ++ rest)%string)
  /\ ((String.length s <= n)%nat -> String.substring 0 n s = s).
Proof.
  revert s. induction n as [|n IH]; intros s.
  - destruct s as [|c s]; simpl.
    + split; [lia|]. split; [by exists EmptyString|done].
    + split; [lia|]. split; [by exists (String c s)|lia].
  - destruct s as [|c s]; simpl.
    + split; [lia|]. split; [by exists EmptyString|done].
    + destruct (IH s) as (Hlen & [rest Hrest] & Hsame).
      split; [lia|]. split.
      * exists rest.
        change (String c s
                = String c (String.substring 0 n s ++ rest))%string.
        by rewrite <- Hrest.
      * intros Hle. rewrite Hsame; [done|lia].
Qed.

Lemma c_string_prefix (s : string) :
  (String.length (c_string s) <= String.length s)%nat
  /\ (exists rest, s = (c_string s ++ rest)%string)
  /\ has_nul (c_string s) = false
  /\ (has_nul s = false -> c_string s = s).
Proof.
  induction s as [|c s (Hlen & [rest Hrest] & Hnul & Hsame)]; simpl.
  - split; [lia|]. split; [by exists EmptyString|done].
  - destruct (Ascii.eqb c zero) eqn:Hc; simpl.
    + split; [lia|]. split; [by exists (String c s)|done].
    + rewrite Hc. simpl. split; [lia|]. split.
      * exists rest.
        change (String c s = String c (c_string s ++ rest))%string.
        by rewrite <- Hrest.
      * split; [done|]. intros Hno. by rewrite Hsame.
Qed.

(** X19. The formatted overload submits the expansion of its format cut at
    4095 characters and at the first NUL: the message recorded is a prefix
    of the expansion, holds at most 4095 characters and no NUL, and is the
    whole expansion when that is short enough and has no NUL. Expansions that
    agree on their first 4095 characters are one and the same submission. *)
Theorem log_format_truncates
    (s : BufferedLogger) (out : Sinks) (env : Env) (lvl : LogLevel)
    (expansion : string) :
  let msg := c_string (vsnprintf_stored formatBuffer_size expansion) in
  log_format s out env lvl expansion = log s out env lvl msg
  /\ (String.length msg <= 4095)%nat
  /\ has_nul msg = false
  /\ (exists rest, expansion = (msg ++ rest)%string)
  /\ ((String.length expansion <= 4095)%nat -> has_nul expansion = false ->
      msg = expansion)
  /\ forall other : string,
       String.substring 0 4095 other = String.substring 0 4095 expansion ->
       log_format s out env lvl other = log_format s out env lvl expansion.
Proof.
  simpl. unfold vsnprintf_stored, formatBuffer_size.
  change (4096 - 1)%nat with 4095%nat.
  destruct (substring_prefix 4095 expansion) as (Hlen & [r1 Hr1] & Hsame).
  destruct (c_string_prefix (String.substring 0 4095 expansion))
    as (Hclen & [r2 Hr2] & Hnul & Hcsame).
  split.
  { unfold log_format, log, vsnprintf_stored, formatBuffer_size.
    change (4096 - 1)%nat with 4095%nat.
    by destruct (level_ltb lvl (minimumLevel (m_config s))). }
  split; [lia|]. split; [done|]. split.
  { exists (r2 ++ r1)%string. rewrite <- string_app_assoc, <- Hr2. done. }
  split.
  { intros Hshort Hno. rewrite (Hsame Hshort). by apply c_string_prefix. }
  intros other Hother. unfold log_format, vsnprintf_stored, formatBuffer_size.
  change (4096 - 1)%nat with 4095%nat. by rewrite Hother.
Qed.

(** ** The milliseconds field *)

Lemma millis_table :
  forallb (fun k => three_digits (setw3 (dec (Z.of_nat k)))) (seq 0 1000)
  = true.
Proof. vm_compute. reflexivity. Qed.

(** X20. For a record stamped at or after the epoch of the clock, the
    milliseconds field of its line is exactly three decimal digits. *)
Theorem millis_field_three_digits (e : LogEntry) :
  0 <= timestamp e ->
  String.length (millis_field e) = 3%nat
  /\ all_digits (millis_field e) = true.
Proof.
  intros Hts. unfold millis_field.
  set (n := Z.rem (duration_cast_ms (timestamp e)) 1000).
  assert (Hn : 0 <= n < 1000).
  { subst n. unfold duration_cast_ms, ticks_per_ms.
    assert (0 <= timestamp e ÷ 1000000) by (apply Z.quot_pos; lia).
    rewrite Z.rem_mod_nonneg by lia. apply Z.mod_pos_bound. lia. }
  pose proof millis_table as Htab.
  rewrite forallb_forall in Htab.
  specialize (Htab (Z.to_nat n)).
  rewrite Z2Nat.id in Htab by lia.
  assert (Hin : In (Z.to_nat n) (seq 0 1000)) by (apply in_seq; lia).
  apply Htab in Hin. unfold three_digits in Hin.
  apply andb_true_iff in Hin as [Hlen Hdig].
  by apply Nat.eqb_eq in Hlen.
Qed.

Lemma millis_field_three_digits_witness :
  String.length (millis_field (mkLogEntry 1234567890 INFO "x" 1 0 1)) = 3%nat
  /\ all_digits (millis_field (mkLogEntry 1234567890 INFO "x" 1 0 1)) = true.
Proof. apply millis_field_three_digits. simpl. lia. Defined.

Lemma log_format_truncates_witness :
  log_format (construct sync_Config true).1 no_output (env_at 1000000)
    INFO "frame 42 late"
  = log (construct sync_Config true).1 no_output (env_at 1000000)
      INFO "frame 42 late".
Proof.
  destruct (log_format_truncates (construct sync_Config true).1 no_output
              (env_at 1000000) INFO "frame 42 late")
    as (Heq & _ & _ & _ & Hsame & _).
  assert (Hshort : (String.length "frame 42 late" <= 4095)%nat)
    by (vm_compute; lia).
  pose proof (Hsame Hshort eq_refl) as Hmsg.
  rewrite Heq. by rewrite Hmsg.
Defined.

(** ** Batches handed to the callback *)

Lemma internalLog_batches (s : BufferedLogger) (out : Sinks) (env : Env)
    (e : LogEntry) (bound : Z) :
  asyncFlush (m_config s) = false ->
  otherBuffer s = [] ->
  below_thresholds s ->
  Z.max 1 (bufferSize (m_config s)) <= bound ->
  Forall (fun b : list LogEntry => Z.of_nat (length b) <= bound)
    (callback_batches out) ->
  Forall (fun b : list LogEntry => Z.of_nat (length b) <= bound)
    (callback_batches (internalLog s out env e).2).
Proof.
  intros Hsync Hother Hbelow Hbound Hall. unfold internalLog.
  set (s2 := set_stats _ _).
  assert (Hcur : currentBuffer s2 = currentBuffer s ++ [e]).
  { subst s2. destruct s as [c p q u m w i th sd ff fs cb st].
    unfold currentBuffer. simpl. by destruct u. }
  assert (Hcfg : m_config s2 = m_config s) by done.
  destruct (_ || _); [|done]. rewrite Hcfg, Hsync.
  unfold performFlush. rewrite Hcur.
  destruct (currentBuffer s ++ [e]) as [|x l] eqn:Happ; [done|].
  simpl. destruct (m_flushCallback s); [|done].
  apply Forall_app. split; [done|]. constructor; [|done].
  rewrite <- Happ, length_app. simpl.
  destruct Hbelow as [->|[Hlen _]]; simpl; lia.
Qed.

(** Close the conjuncts of an invariant that an update of other fields
    leaves alone. *)
Ltac keep_thresholds t :=
  repeat split; first [done | by apply (below_thresholds_frame t)].

(** X21. In a run of calls made one after another, none overlapping
    another (the calls of one client thread), the callback is never handed
    an empty batch; and with synchronous flushing a batch never holds more
    than [bufferSize] records (one, for a [bufferSize] of zero). *)
Theorem callback_batches_bounded
    (config : Config) (opens : bool) (ops : list Op)
    (s : BufferedLogger) (out : Sinks) :
  run ops (construct config opens) = Some (s, out) ->
  Forall (fun b : list LogEntry => b <> []) (callback_batches out)
  /\ (asyncFlush config = false ->
      Forall (fun b : list LogEntry =>
                Z.of_nat (length b) <= Z.max 1 (bufferSize config))
        (callback_batches out)).
Proof.
  intros Hrun. split.
  - apply (run_preserves
             (fun _ o => Forall (fun b : list LogEntry => b <> [])
                           (callback_batches o)) any_op)
      with (ops := ops) (s := (construct config opens).1)
           (out := (construct config opens).2) (s' := s); try done.
    + intros t o env H. unfold performFlush.
      destruct (currentBuffer t) eqn:Hc; [done|]. simpl.
      destruct (m_flushCallback t); [|done].
      apply Forall_app. split; [done|]. by constructor.
    + intros t o env _ H. unfold shutdown, forceFlush.
      destruct (m_shutdown t); [done|]. unfold performFlush.
      destruct (currentBuffer _) eqn:Hc; [done|]. simpl.
      destruct (m_flushCallback t); [|done].
      apply Forall_app. split; [done|]. by constructor.
    + apply Forall_any_op.
  - intros Hsync.
    set (bound := Z.max 1 (bufferSize config)).
    set (small := fun b : list LogEntry => Z.of_nat (length b) <= bound).
    assert (Hflush : forall t o env,
              otherBuffer t = [] -> below_thresholds t ->
              bufferSize (m_config t) = bufferSize config ->
              Forall small (callback_batches o) ->
              Forall small (callback_batches (performFlush t o env).2)).
    { intros t o env Ho Hb Hsz Hall. unfold performFlush.
      destruct (currentBuffer t) as [|x l] eqn:Hc; [done|]. simpl.
      destruct (m_flushCallback t); [|done].
      apply Forall_app. split; [done|]. constructor; [|done].
      unfold small, bound. rewrite <- Hc.
      destruct Hb as [Hb|[Hb _]]; [by rewrite Hb in Hc|]. lia. }
    assert (Hinv : asyncFlush (m_config s) = false /\ otherBuffer s = []
                   /\ below_thresholds s
                   /\ bufferSize (m_config s) = bufferSize config
                   /\ Forall small (callback_batches out));
      [|by destruct Hinv as (_ & _ & _ & _ & ?)].
    apply (run_preserves_calls
             (fun t o => asyncFlush (m_config t) = false
                         /\ otherBuffer t = [] /\ below_thresholds t
                         /\ bufferSize (m_config t) = bufferSize config
                         /\ Forall small (callback_batches o)) any_op)
      with (ops := ops) (s := (construct config opens).1)
           (out := (construct config opens).2).
    + intros t o m w i (Ha & Ho & Hb & Hsz & Hall).
      keep_thresholds t.
    + intros t o (Ha & Ho & Hb & Hsz & Hall).
      keep_thresholds t.
    + intros t o (Ha & Ho & Hb & Hsz & Hall).
      keep_thresholds t.
    + intros t o env (Ha & Ho & Hb & Hsz & Hall).
      pose proof (Hflush t o env Ho Hb Hsz Hall) as Hnew.
      destruct (performFlush t o env) as [t' o'] eqn:Hp.
      destruct (performFlush_ledger _ _ _ _ _ Hp Ho)
        as (Hc' & Ho' & _ & _ & _ & Hcfg' & _).
      simpl in *. rewrite Hcfg'. repeat (split; [done|]).
      split; [by left|done].
    + intros t o lvl _ (Ha & Ho & Hb & Hsz & Hall).
      keep_thresholds t.
    + intros t o enable _ (Ha & Ho & Hb & Hsz & Hall).
      unfold enableDeduplication.
      destruct enable; keep_thresholds t.
    + intros t o callable _ (Ha & Ho & Hb & Hsz & Hall).
      keep_thresholds t.
    + intros t o env _ (Ha & Ho & Hb & Hsz & Hall).
      unfold shutdown, forceFlush. destruct (m_shutdown t); [done|].
      assert (Hb1 : below_thresholds
                      (set_lifecycle t false true (m_fileStream t)))
        by (by apply (below_thresholds_frame t)).
      pose proof (Hflush (set_lifecycle t false true (m_fileStream t))
                    o env Ho Hb1 Hsz Hall) as Hnew.
      destruct (performFlush _ o env) as [t' o'] eqn:Hp.
      assert (Ho1 : otherBuffer (set_lifecycle t false true (m_fileStream t))
                    = []) by done.
      destruct (performFlush_ledger _ _ _ _ _ Hp Ho1)
        as (Hc' & Ho' & _ & _ & _ & Hcfg' & _).
      simpl in *. split; [by rewrite Hcfg'|]. split; [done|].
      split; [by left|]. split; [by rewrite Hcfg'|done].
    + intros t o env e _ (Ha & Ho & Hb & Hsz & Hall).
      destruct (internalLog_below_thresholds t o env e Ha Ho)
        as (Ha' & Ho' & Hb').
      split; [done|]. split; [done|]. split; [done|].
      split; [by rewrite internalLog_config|].
      apply internalLog_batches; try done.
      unfold bound. rewrite Hsz. lia.
    + apply Forall_any_op.
    + by destruct (construct config opens).
    + simpl. rewrite Hsync. split; [done|]. split; [done|].
      split; [by left|]. split; [done|]. constructor.
Qed.

Lemma callback_batches_bounded_witness :
  Forall (fun b : list LogEntry => b <> []) (callback_batches callback_final.2)
  /\ Forall (fun b : list LogEntry =>
               Z.of_nat (length b) <= Z.max 1 (bufferSize small_Config))
       (callback_batches callback_final.2).
Proof.
  destruct (callback_batches_bounded small_Config true callback_ops
              callback_final.1 callback_final.2) as [Hne Hsmall].
  - vm_compute. reflexivity.
  - split; [exact Hne|]. by apply Hsmall.
Defined.

(** ** Recent entries and the size of the map *)

(** A probe of a fingerprint that has no entry, when every entry is recent,
    evicts nothing. *)
Lemma probe_fresh (s : BufferedLogger) (h now : Z) :
  0 < deduplicationTimeWindow (m_config s) ->
  ring_ok s ->
  all_recent s now ->
  m_dedupeMap s !! h = None ->
  exists s',
    shouldDeduplicate s h now = Some (false, s')
    /\ m_dedupeMap s' = <[h := mkDedupeInfo now 1]> (m_dedupeMap s)
    /\ m_config s' = m_config s
    /\ ring_ok s'
    /\ length (m_dedupeWindow s') = length (m_dedupeWindow s)
    /\ all_recent s' now.
Proof.
  intros HW Hok Hrecent Hnone.
  unfold shouldDeduplicate, dedupe_hit, dedupe_track. rewrite Hnone.
  destruct (lookup_lt_is_Some_2 _ _ Hok) as [old Hold]. rewrite Hold. simpl.
  assert (Hwritten : forall k info,
            <[h := mkDedupeInfo now 1]> (m_dedupeMap s) !! k = Some info ->
            elapsed_ms now (lastSeen info)
              < deduplicationTimeWindow (m_config s)).
  { intros k info. destruct (decide (h = k)) as [<-|Hne].
    - rewrite lookup_insert_eq. intros [= <-]. simpl.
      by rewrite elapsed_ms_same.
    - rewrite lookup_insert_ne by done. apply Hrecent. }
  assert (Hkeep : evict_displaced (deduplicationTimeWindow (m_config s)) now
                    old (<[h := mkDedupeInfo now 1]> (m_dedupeMap s))
                  = <[h := mkDedupeInfo now 1]> (m_dedupeMap s)).
  { unfold evict_displaced. destruct (old =? 0); [done|].
    destruct (_ !! old) as [info|] eqn:Hl; [|done].
    pose proof (Hwritten _ _ Hl).
    by destruct (Z.leb_spec (deduplicationTimeWindow (m_config s))
                   (elapsed_ms now (lastSeen info))); [lia|]. }
  rewrite Hkeep. eexists. split; [done|]. simpl.
  split; [done|]. split; [done|]. split.
  { unfold ring_ok. simpl. rewrite length_insert.
    apply Nat.mod_upper_bound. unfold ring_ok in Hok. lia. }
  split; [by rewrite length_insert|].
  unfold all_recent. simpl. exact Hwritten.
Qed.

(** X22. The ring does not bound the map. Probing any number of distinct
    fingerprints that have no entry, while every entry of the map is recent,
    lets each of them pass and evicts nothing: every entry stays, and the
    map grows by one entry for each fingerprint, whatever the length of the
    ring. *)
Theorem recent_entries_are_kept
    (s : BufferedLogger) (hs : list Z) (now : Z) :
  0 < deduplicationTimeWindow (m_config s) ->
  ring_ok s ->
  all_recent s now ->
  NoDup hs ->
  (forall h, h ∈ hs -> m_dedupeMap s !! h = None) ->
  exists s',
    probe_each s hs now = Some (replicate (length hs) false, s')
    /\ size (m_dedupeMap s') = (size (m_dedupeMap s) + length hs)%nat
    /\ (forall k info,
          m_dedupeMap s !! k = Some info -> m_dedupeMap s' !! k = Some info)
    /\ (forall h, h ∈ hs ->
        m_dedupeMap s' !! h = Some (mkDedupeInfo now 1))
    /\ length (m_dedupeWindow s') = length (m_dedupeWindow s).
Proof.
  intros HW Hok Hrecent Hnodup. revert s HW Hok Hrecent.
  induction Hnodup as [|h rest Hnotin Hnodup IH];
    intros s HW Hok Hrecent Hfresh.
  - exists s. simpl. split; [done|]. split; [lia|]. split; [done|].
    split; [|done]. intros h Hin. by apply elem_of_nil in Hin.
  - destruct (probe_fresh s h now HW Hok Hrecent)
      as (s1 & Hp & Hm1 & Hcfg1 & Hok1 & Hlen1 & Hrecent1).
    { apply Hfresh. left. }
    assert (Hfresh1 : forall k, k ∈ rest -> m_dedupeMap s1 !! k = None).
    { intros k Hk. rewrite Hm1, lookup_insert_ne.
      - apply Hfresh. by right.
      - intros ->. done. }
    destruct (IH s1) as (s' & Hps & Hsize & Hkept & Hall & Hlen); try done.
    { by rewrite Hcfg1. }
    exists s'. cbn [probe_each]. rewrite Hp. simpl. rewrite Hps. simpl.
    split; [done|]. split.
    { rewrite Hsize, Hm1, map_size_insert_None by (apply Hfresh; left).
      lia. }
    split.
    { intros k info Hk. apply Hkept. rewrite Hm1, lookup_insert_ne; [done|].
      intros ->. rewrite Hfresh in Hk; [done|left]. }
    split; [|by rewrite Hlen].
    intros k Hk. apply elem_of_cons in Hk as [->|Hk]; [|by apply Hall].
    apply Hkept. rewrite Hm1. apply lookup_insert_eq.
Qed.

Lemma recent_entries_are_kept_witness :
  exists s',
    probe_each one_slot_fresh [11; 12; 13] 1000000
    = Some ([false; false; false], s')
    /\ size (m_dedupeMap s') = 3%nat
    /\ length (m_dedupeWindow s') = 1%nat.
Proof.
  destruct (recent_entries_are_kept one_slot_fresh [11; 12; 13] 1000000)
    as (s' & Hp & Hsize & _ & _ & Hlen).
  - reflexivity.
  - unfold ring_ok. vm_compute. lia.
  - intros k info Hk. vm_compute in Hk. discriminate.
  - apply NoDup_ListNoDup. repeat constructor; simpl; lia.
  - intros h _. reflexivity.
  - exists s'. split; [exact Hp|]. split; [exact Hsize|exact Hlen].
Defined.
